(** * A shallow embedding of the book question-answering backend

    The development follows the Python sources under [chatbot/backend/src]:
    [utils/validation.py], [utils/chunking.py], [services/retrieval_service.py],
    [services/content_extractor.py], [services/chunking_service.py],
    [services/answer_generation_service.py] and [api/routes/chat.py].

    Conventions.
    - A Python [str] is a [string]; a character is a code point below 256
      (the Latin-1 range of Python's code points), so [isspace], [\s], [\d]
      and [lower] are the restrictions of Python's Unicode tables to that
      range.
    - A Python [int] is a [Z]; a Python [float] is a primitive binary64
      [float], with Python's own rounding.
    - A dict that is used as a struct is a record whose optional keys are
      [option] fields; [d.get(k, default)] is [get_or].
    - The three network providers (embedding, vector index, generation) are
      fields of an environment record; a provider that raises is a value of
      its outcome type. *)

From Stdlib Require Import ZArith NArith Arith List String Ascii Bool Lia.
From Stdlib Require Import Permutation Sorted DecimalString DecimalZ Floats.
Import ListNotations.

Set Warnings "-inexact-float,-abstract-large-number".

#[local] Open Scope list_scope.
#[local] Open Scope string_scope.

(** ** Python strings *)

Module PyStr.

(** [d.get(k, default)] for an optional key. *)
Definition get_or {A : Type} (default : A) (o : option A) : A :=
  match o with
  | Some v => v
  | None => default
  end.

Definition code (c : ascii) : nat := nat_of_ascii c.

Definition in_range (lo hi : nat) (c : ascii) : bool :=
  (lo <=? code c)%nat && (code c <=? hi)%nat.

(** [str.isspace] and the regex class [\s] on code points below 256. *)
Definition is_space (c : ascii) : bool :=
  in_range 9 13 c || in_range 28 32 c
  || (code c =? 133)%nat || (code c =? 160)%nat.

(** The regex class [\d] on code points below 256. *)
Definition is_digit (c : ascii) : bool := in_range 48 57 c.

(** [str.lower] on one code point below 256. *)
Definition lower_char (c : ascii) : ascii :=
  if in_range 65 90 c
     || (in_range 192 222 c && negb (code c =? 215)%nat)
  then ascii_of_nat (code c + 32)
  else c.

Fixpoint lower (s : string) : string :=
  match s with
  | EmptyString => EmptyString
  | String c r => String (lower_char c) (lower r)
  end.

(** Truthiness of a string: [bool(s)]. *)
Definition truthy (s : string) : bool :=
  match s with
  | EmptyString => false
  | String _ _ => true
  end.

Fixpoint lstrip (s : string) : string :=
  match s with
  | EmptyString => EmptyString
  | String c r => if is_space c then lstrip r else s
  end.

(** [rstrip] keeps a character when it is not a space or when something
    that is kept follows it. *)
Fixpoint rstrip (s : string) : string :=
  match s with
  | EmptyString => EmptyString
  | String c r =>
      match rstrip r with
      | EmptyString => if is_space c then EmptyString else String c EmptyString
      | String _ _ as r' => String c r'
      end
  end.

(** [s.strip()] *)
Definition strip (s : string) : string := rstrip (lstrip s).

(** [needle in hay] *)
Fixpoint contains (needle hay : string) : bool :=
  prefix needle hay
  || match hay with
     | EmptyString => false
     | String _ r => contains needle r
     end.

(** [s[:n]] for [n >= 0]. *)
Fixpoint take (n : nat) (s : string) : string :=
  match n, s with
  | O, _ => EmptyString
  | _, EmptyString => EmptyString
  | S k, String c r => String c (take k r)
  end.

(** The part of [s] before its last space, when [s] has a space. *)
Fixpoint before_last_space (s : string) : option string :=
  match s with
  | EmptyString => None
  | String c r =>
      match before_last_space r with
      | Some h => Some (String c h)
      | None => if Ascii.eqb c " " then Some EmptyString else None
      end
  end.

(** [s.rsplit(" ", 1)[0]]: without a space in [s] the single piece is [s]. *)
Definition rsplit1_head (s : string) : string :=
  get_or s (before_last_space s).

Definition newline : ascii := ascii_of_nat 10.
Definition nl : string := String newline EmptyString.

(** [s.split("\n")]: never empty; the pieces hold no newline. *)
Fixpoint split_lines (s : string) : list string :=
  match s with
  | EmptyString => [EmptyString]
  | String c r =>
      if Ascii.eqb c newline then EmptyString :: split_lines r
      else match split_lines r with
           | [] => [String c EmptyString]
           | l :: ls => String c l :: ls
           end
  end.

(** [sep.join(parts)] *)
Fixpoint join (sep : string) (parts : list string) : string :=
  match parts with
  | [] => EmptyString
  | [p] => p
  | p :: ps => p ++ sep ++ join sep ps
  end.

(** [s] without the prefix [p], when it starts with [p]. *)
Fixpoint drop_prefix (p s : string) : option string :=
  match p, s with
  | EmptyString, _ => Some s
  | String a p', String b s' =>
      if Ascii.eqb a b then drop_prefix p' s' else None
  | String _ _, EmptyString => None
  end.

(** The longest prefix of digits and what follows it: a greedy [\d*]. *)
Fixpoint span_digits (s : string) : string * string :=
  match s with
  | EmptyString => (EmptyString, EmptyString)
  | String c r =>
      if is_digit c
      then let (d, rest) := span_digits r in (String c d, rest)
      else (EmptyString, s)
  end.

(** [str(n)] for an int. *)
Definition str_of_int (n : Z) : string :=
  NilEmpty.string_of_int (Z.to_int n).

(** [int(s)] for a string of decimal digits; [None] when [int] raises. *)
Definition int_of_digits (s : string) : option Z :=
  option_map Z.of_uint (NilZero.uint_of_string s).

(** A stable sort, as [sorted] is: [x] moves past [y] only when [y] has to
    come strictly first. *)
Fixpoint insert_by {A : Type} (first : A -> A -> bool) (x : A) (l : list A)
  : list A :=
  match l with
  | [] => [x]
  | y :: ys => if first y x then y :: insert_by first x ys else x :: l
  end.

Definition sorted_by {A : Type} (first : A -> A -> bool) (l : list A)
  : list A :=
  fold_right (insert_by first) [] l.

End PyStr.

(** ** models: [QueryMode], [Source] *)

Module Models.
Import PyStr.

Inductive QueryMode := BOOK_WIDE | SELECTED_TEXT.

(** [models/source.py]: a citation. *)
Record Source := mkSource {
  passage_id : string;
  chapter : string;
  section : string;
  page : option Z;
  snippet : string
}.

(** The field pattern [^(ch\d+-sec\d+-p\d+|selected-text)$] of
    [Source.passage_id]; the validator's [$] is the end of the text. *)
Definition passage_id_pattern (s : string) : bool :=
  String.eqb s "selected-text"
  || match drop_prefix "ch" s with
     | None => false
     | Some r1 =>
         let (d1, r2) := span_digits r1 in
         match drop_prefix "-sec" r2 with
         | None => false
         | Some r3 =>
             let (d2, r4) := span_digits r3 in
             match drop_prefix "-p" r4 with
             | None => false
             | Some r5 =>
                 let (d3, r6) := span_digits r5 in
                 truthy d1 && truthy d2 && truthy d3 && negb (truthy r6)
             end
         end
     end.

(** [Source(...)]: [None] when the model's field constraints raise a
    validation error ([min_length], [max_length], [ge], [pattern]). *)
Definition new_Source (passage_id chapter section : string)
    (page : option Z) (snippet : string) : option Source :=
  if passage_id_pattern passage_id
     && (1 <=? length chapter)%nat
     && (1 <=? length section)%nat
     && match page with Some p => (1 <=? p)%Z | None => true end
     && (1 <=? length snippet)%nat && (length snippet <=? 200)%nat
  then Some (mkSource passage_id chapter section page snippet)
  else None.

End Models.

(** ** utils/validation.py *)

Module Validation.
Import PyStr Models.

(** The class [[\x00-\x08\x0b-\x0c\x0e-\x1f\x7f]]. *)
Definition is_control (c : ascii) : bool :=
  in_range 0 8 c || in_range 11 12 c || in_range 14 31 c
  || (code c =? 127)%nat.

Fixpoint remove_control (s : string) : string :=
  match s with
  | EmptyString => EmptyString
  | String c r =>
      if is_control c then remove_control r else String c (remove_control r)
  end.

(** [re.sub(r"\s+", " ", text)]; [in_run] tells that the previous character
    was a space of the run being replaced. *)
Fixpoint collapse_spaces (in_run : bool) (s : string) : string :=
  match s with
  | EmptyString => EmptyString
  | String c r =>
      if is_space c
      then (if in_run then collapse_spaces true r
            else String " " (collapse_spaces true r))
      else String c (collapse_spaces false r)
  end.

Definition sanitize_text (text : string) : string :=
  strip (collapse_spaces false (remove_control text)).

Definition validate_query_text (text : string) (min_length max_length : nat)
  : bool * string :=
  if negb (truthy text) then (false, "Query text cannot be empty")
  else if (length text <? min_length)%nat
  then (false, "Query text must be at least "
                 ++ str_of_int (Z.of_nat min_length) ++ " characters")
  else if (max_length <? length text)%nat
  then (false, "Query text must not exceed "
                 ++ str_of_int (Z.of_nat max_length) ++ " characters")
  else (true, "").

(** [not context] for an optional string: [None] and [""] are falsy. *)
Definition falsy_opt (context : option string) : bool :=
  match context with
  | None => true
  | Some s => negb (truthy s)
  end.

Definition validate_context_text (context : option string)
    (mode : QueryMode) (min_length max_length : nat) : bool * string :=
  match mode with
  | SELECTED_TEXT =>
      if falsy_opt context
      then (false, "Context is required for selected-text mode")
      else if (length (get_or "" context) <? min_length)%nat
      then (false, "Context must be at least "
                     ++ str_of_int (Z.of_nat min_length) ++ " characters")
      else if (max_length <? length (get_or "" context))%nat
      then (false, "Context must not exceed "
                     ++ str_of_int (Z.of_nat max_length) ++ " characters")
      else (true, "")
  | BOOK_WIDE =>
      if negb (falsy_opt context)
      then (false, "Context must not be provided for book-wide mode")
      else (true, "")
  end.

(** [re.match(r"^ch(\d+)-sec(\d+)-p(\d+)$", passage_id)] and the three
    [int(match.group(k))]. Without [re.MULTILINE], [$] matches at the end
    of the string and just before a newline that ends it. *)
Definition extract_passage_id_components (passage_id : string)
  : option (Z * Z * Z) :=
  match drop_prefix "ch" passage_id with
  | None => None
  | Some r1 =>
      let (d1, r2) := span_digits r1 in
      match drop_prefix "-sec" r2 with
      | None => None
      | Some r3 =>
          let (d2, r4) := span_digits r3 in
          match drop_prefix "-p" r4 with
          | None => None
          | Some r5 =>
              let (d3, r6) := span_digits r5 in
              if String.eqb r6 "" || String.eqb r6 nl
              then match int_of_digits d1, int_of_digits d2,
                         int_of_digits d3 with
                   | Some chapter, Some section, Some page =>
                       Some (chapter, section, page)
                   | _, _, _ => None
                   end
              else None
          end
      end
  end.

Definition is_valid_passage_id (passage_id : string) : bool :=
  match extract_passage_id_components passage_id with
  | Some _ => true
  | None => false
  end.

End Validation.

(** ** utils/chunking.py *)

Module ChunkingUtils.
Import PyStr.

(** [f"ch{chapter_num}-sec{section_num}-p{page_num}"] *)
Definition generate_passage_id (chapter_num section_num page_num : Z)
  : string :=
  "ch" ++ str_of_int chapter_num
    ++ "-sec" ++ str_of_int section_num
    ++ "-p" ++ str_of_int page_num.

(** [truncate_snippet], for a [max_length] of 3 or more; its callers pass
    200. *)
Definition truncate_snippet (text : string) (max_length : nat) : string :=
  if (length text <=? max_length)%nat then text
  else rsplit1_head (take (max_length - 3) text) ++ "...".

End ChunkingUtils.

(** ** config.py and the external providers *)

Module Env.

(** The fields of [Settings] that the modelled code reads; [Field(ge=1)]
    makes both widths positive naturals. *)
Record Settings := mkSettings {
  top_k_retrieval : nat;
  top_k_rerank : nat;
  similarity_threshold : float;
  confidence_threshold : float
}.

(** The defaults of [config.py]. *)
Definition default_settings : Settings :=
  mkSettings 10 5 0.7%float 0.6%float.

(** What a call that may raise does: it returns, or raises an exception
    whose [str(e)] is [msg]. *)
Inductive Outcome (A : Type) :=
| Returns (a : A)
| Raises (msg : string).
Arguments Returns {A} a.
Arguments Raises {A} msg.

End Env.

(** ** services/retrieval_service.py *)

Module Retrieval.
Import PyStr Env.

(** The payload dict of an index point; every key is optional. *)
Record Payload := mkPayload {
  text : option string;
  chapter : option string;
  section : option string;
  page : option Z;
  passage_id : option string
}.

(** A search result dict [{id, score, payload}]; reranking adds the key
    [boosted_score] to a copy. *)
Record Chunk := mkChunk {
  id : string;
  score : float;
  payload : Payload;
  boosted_score : option float
}.

(** [chunk["payload"].get("chapter", "Unknown")] *)
Definition chapter_of (c : Chunk) : string :=
  get_or "Unknown" (chapter (payload c)).

(** [chapter_counts[chapter] = chapter_counts.get(chapter, 0) + 1] on a
    dict that keeps its keys in insertion order. *)
Fixpoint bump (ch : string) (counts : list (string * nat))
  : list (string * nat) :=
  match counts with
  | [] => [(ch, 1%nat)]
  | (k, v) :: rest =>
      if String.eqb k ch then (k, S v) :: rest else (k, v) :: bump ch rest
  end.

Definition chapter_counts (chunks : list Chunk) : list (string * nat) :=
  fold_left (fun counts c => bump (chapter_of c) counts) chunks [].

(** [max(d, key=d.get)] from a current best: a later key replaces it only
    with a strictly greater count. *)
Fixpoint max_from (best : string * nat) (counts : list (string * nat))
  : string :=
  match counts with
  | [] => fst best
  | kv :: rest =>
      if (snd best <? snd kv)%nat then max_from kv rest
      else max_from best rest
  end.

(** [max(chapter_counts, key=chapter_counts.get) if chapter_counts else
    None] *)
Definition most_common (counts : list (string * nat)) : option string :=
  match counts with
  | [] => None
  | kv :: rest => Some (max_from kv rest)
  end.

Definition boost_factor : float := 1.1%float.

(** The loop body that builds [boosted_chunks]. *)
Definition boost (most_common_chapter : option string) (c : Chunk) : Chunk :=
  match most_common_chapter with
  | Some m =>
      if String.eqb (chapter_of c) m
      then mkChunk (id c) (score c) (payload c)
                   (Some (score c * boost_factor)%float)
      else mkChunk (id c) (score c) (payload c) (Some (score c))
  | None => mkChunk (id c) (score c) (payload c) (Some (score c))
  end.

(** [x["boosted_score"]]; the key is present on every boosted chunk. *)
Definition boosted_key (c : Chunk) : float :=
  get_or (score c) (boosted_score c).

(** [sorted(..., key=..., reverse=True)]: [y] stays before [x] when its key
    is strictly greater. *)
Definition higher_first (y x : Chunk) : bool :=
  PrimFloat.ltb (boosted_key x) (boosted_key y).

Definition rerank_by_section_proximity (s : Settings) (chunks : list Chunk)
  : list Chunk :=
  match chunks with
  | [] => []
  | _ :: _ =>
      let most_common_chapter := most_common (chapter_counts chunks) in
      let boosted_chunks := map (boost most_common_chapter) chunks in
      let reranked := sorted_by higher_first boosted_chunks in
      firstn (top_k_rerank s) reranked
  end.

(** [get_sort_key] of [sort_by_document_order]. *)
Definition get_sort_key (c : Chunk) : Z * Z * Z :=
  match Validation.extract_passage_id_components
          (get_or "ch0-sec0-p0" (passage_id (payload c))) with
  | Some (chapter_num, section_num, page_num) =>
      (chapter_num, section_num, page_num)
  | None => (999, 999, 999)%Z
  end.

(** [a < b] on tuples of three ints. *)
Definition tuple_ltb (a b : Z * Z * Z) : bool :=
  let '(a1, a2, a3) := a in
  let '(b1, b2, b3) := b in
  (a1 <? b1)%Z
  || ((a1 =? b1)%Z && ((a2 <? b2)%Z || ((a2 =? b2)%Z && (a3 <? b3)%Z))).

Definition key_first (y x : Chunk) : bool :=
  tuple_ltb (get_sort_key y) (get_sort_key x).

Definition sort_by_document_order (chunks : list Chunk) : list Chunk :=
  sorted_by key_first chunks.

(** One iteration of [chunks_to_sources]: a chunk whose [Source] fails to
    validate is skipped. *)
Definition chunk_to_source (c : Chunk) : option Models.Source :=
  let p := payload c in
  Models.new_Source
    (get_or "unknown" (passage_id p))
    (get_or "Unknown Chapter" (chapter p))
    (get_or "Unknown Section" (section p))
    (page p)
    (ChunkingUtils.truncate_snippet (get_or "" (text p)) 200).

Fixpoint chunks_to_sources (chunks : list Chunk) : list Models.Source :=
  match chunks with
  | [] => []
  | c :: rest =>
      match chunk_to_source c with
      | Some src => src :: chunks_to_sources rest
      | None => chunks_to_sources rest
      end
  end.

(** The providers of the retrieval half: [generate_embedding] may raise;
    the index wrapper [search] catches its own failures and returns []. *)
Record Providers := mkProviders {
  generate_embedding : string -> Outcome (list float);
  search : list float -> nat -> float -> list Chunk
}.

Definition retrieve_chunks (s : Settings) (P : Providers) (query : string)
  : list Chunk :=
  match generate_embedding P query with
  | Raises _ => []
  | Returns query_embedding =>
      search P query_embedding (top_k_retrieval s) (similarity_threshold s)
  end.

Definition retrieve_and_rerank (s : Settings) (P : Providers)
    (query : string) : list Chunk * list Models.Source :=
  match retrieve_chunks s P query with
  | [] => ([], [])
  | retrieved_chunks =>
      let reranked_chunks := rerank_by_section_proximity s retrieved_chunks in
      let sorted_chunks := sort_by_document_order reranked_chunks in
      (sorted_chunks, chunks_to_sources sorted_chunks)
  end.

Definition context_part (c : Chunk) : string :=
  "[" ++ get_or "unknown" (passage_id (payload c)) ++ "] "
      ++ get_or "" (text (payload c)).

Definition get_context_text (chunks : list Chunk) : string :=
  match chunks with
  | [] => ""
  | _ => join (nl ++ nl) (map context_part chunks)
  end.

End Retrieval.

(** ** services/content_extractor.py *)

Module ContentExtractor.
Import PyStr.

(** A section dict [{section_title, section_content}]. *)
Record Section_ := mkSection {
  section_title : string;
  section_content : string
}.

(** The longest prefix of white space and what follows it: a greedy [\s*]. *)
Fixpoint span_spaces (s : string) : string * string :=
  match s with
  | EmptyString => (EmptyString, EmptyString)
  | String c r =>
      if is_space c
      then let (w, rest) := span_spaces r in (String c w, rest)
      else (EmptyString, s)
  end.

Fixpoint last_char (s : string) : string :=
  match s with
  | EmptyString => EmptyString
  | String c EmptyString => s
  | String _ r => last_char r
  end.

(** [re.match(r"^##\s+(.+)$", line)] on a line that holds no newline:
    [match.group(1)] when the line matches. [\s+] takes all the white
    space after [##]; when nothing follows it, it gives its last character
    back to [.+], if it has two or more. *)
Definition section_heading (line : string) : option string :=
  match drop_prefix "##" line with
  | None => None
  | Some r =>
      match span_spaces r with
      | (EmptyString, _) => None
      | (String _ w, rest) =>
          if truthy rest then Some rest
          else if truthy w then Some (last_char w)
          else None
      end
  end.

(** The loop state of [extract_sections]. *)
Record Scan := mkScan {
  sections : list Section_;
  current_section : option string;
  current_content : list string
}.

(** [if current_section: sections.append({...})] *)
Definition save_section (st : Scan) : list Section_ :=
  match current_section st with
  | Some title =>
      if truthy title
      then (sections st ++
            [mkSection title (strip (join nl (current_content st)))])%list
      else sections st
  | None => sections st
  end.

Definition scan_line (st : Scan) (line : string) : Scan :=
  match section_heading line with
  | Some g => mkScan (save_section st) (Some (strip g)) []
  | None =>
      mkScan (sections st) (current_section st)
             (current_content st ++ [line])%list
  end.

Definition extract_sections (content : string) : list Section_ :=
  save_section (fold_left scan_line (split_lines content) (mkScan [] None [])).

(** The chapter dict [{chapter_num, chapter_title, chapter_full}]. *)
Record ChapterInfo := mkChapterInfo {
  chapter_num : option Z;
  chapter_title : option string;
  chapter_full : option string
}.

(** The dict that [process_file] returns, without its front matter. *)
Record ProcessedFile := mkProcessedFile {
  file_path : string;
  chapter_info : option ChapterInfo;
  pf_sections : list Section_;
  raw_content : string
}.

(** [process_file], from the body that is left once the front matter is
    taken off and from the chapter information found for it. *)
Definition process_body (path : string) (info : option ChapterInfo)
    (body : string) : ProcessedFile :=
  mkProcessedFile path info (extract_sections body) body.

End ContentExtractor.

(** ** services/chunking_service.py *)

Module ChunkingService.
Import PyStr ContentExtractor.

(** A chunk dict, before any embedding. *)
Record ChunkDict := mkChunkDict {
  text : string;
  chapter : string;
  section : string;
  page : Z;
  passage_id : string;
  source_file : string
}.

Section WithSplitter.

(** [split_markdown_text]: the external Markdown splitter. *)
Variable split_markdown_text : string -> list string.

(** The loop of [chunk_section] from index [idx]. *)
Fixpoint chunk_texts (info : ChapterInfo) (section_title : string)
    (section_num : Z) (source_file : string) (idx : Z)
    (text_chunks : list string) : list ChunkDict :=
  match text_chunks with
  | [] => []
  | text :: rest =>
      mkChunkDict text
        (get_or "Unknown Chapter" (chapter_full info))
        section_title
        (idx + 1)
        (ChunkingUtils.generate_passage_id
           (get_or 0%Z (chapter_num info)) section_num (idx + 1))
        source_file
      :: chunk_texts info section_title section_num source_file
                     (idx + 1) rest
  end%list.

Definition chunk_section (section_content : string) (info : ChapterInfo)
    (section_title : string) (section_num : Z) (source_file : string)
  : list ChunkDict :=
  chunk_texts info section_title section_num source_file 0
              (split_markdown_text section_content).

(** [not chapter_info]: no dict, or a dict without keys. *)
Definition no_chapter_info (o : option ChapterInfo) : bool :=
  match o with
  | None => true
  | Some (mkChapterInfo None None None) => true
  | Some _ => false
  end.

Definition default_chapter_info : ChapterInfo :=
  mkChapterInfo (Some 0%Z) (Some "Unknown") (Some "Unknown Chapter").

(** The loop of [chunk_file] over [enumerate(sections, start)]. *)
Fixpoint chunk_sections (info : ChapterInfo) (source_file : string)
    (section_num : Z) (sections : list Section_) : list ChunkDict :=
  match sections with
  | [] => []
  | s :: rest =>
      (chunk_section (section_content s) info (section_title s)
                     section_num source_file
       ++ chunk_sections info source_file (section_num + 1) rest)%list
  end.

(** The chapter dict that [chunk_file] works with: the defaults when the
    file has none. *)
Definition effective_chapter_info (o : option ChapterInfo) : ChapterInfo :=
  if no_chapter_info o then default_chapter_info
  else get_or default_chapter_info o.

Definition chunk_file (processed_file : ProcessedFile) : list ChunkDict :=
  let info := effective_chapter_info (chapter_info processed_file) in
  let sections :=
    match pf_sections processed_file with
    | [] => [mkSection (get_or "Main Content" (chapter_title info))
                       (raw_content processed_file)]
    | secs => secs
    end in
  chunk_sections info (file_path processed_file) 1 sections.

End WithSplitter.

(** [validate_chunk]: the five required fields are non-empty and the text
    has between 100 and 2000 characters. *)
Definition validate_chunk (c : ChunkDict) : bool :=
  if negb (truthy (text c) && truthy (chapter c) && truthy (section c)
           && truthy (passage_id c) && truthy (source_file c))
  then false
  else if (length (text c) <? 100)%nat then false
  else if (2000 <? length (text c))%nat then false
  else true.

End ChunkingService.

(** ** services/answer_generation_service.py *)

Module AnswerGeneration.
Import PyStr Env Models.

(** The double quote character, for the prompt texts. *)
Definition dq : string := String (ascii_of_nat 34) EmptyString.

(** [build_prompt]; an absent [user_context] is formatted as [None]. *)
Definition build_prompt (query context : string) (mode : QueryMode)
    (user_context : option string) : string :=
  match mode with
  | SELECTED_TEXT =>
      "**SELECTED TEXT MODE**: Answer using ONLY the user-selected text below. DO NOT use any other knowledge." ++ nl
      ++ nl
      ++ "**User-Selected Text:**" ++ nl
      ++ get_or "None" user_context ++ nl
      ++ nl
      ++ "**User Question:**" ++ nl
      ++ query ++ nl
      ++ nl
      ++ "**Instructions:**" ++ nl
      ++ "- Answer ONLY from the selected text above" ++ nl
      ++ "- If the selected text doesn't contain the answer, say: " ++ dq
      ++ "The selected text does not contain information about [topic]."
      ++ dq ++ nl
      ++ "- Cite the selected text as [selected-text]" ++ nl
  | BOOK_WIDE =>
      "**BOOK-WIDE MODE**: Answer using ONLY the retrieved book passages below. DO NOT use any other knowledge." ++ nl
      ++ nl
      ++ "**Retrieved Context:**" ++ nl
      ++ context ++ nl
      ++ nl
      ++ "**User Question:**" ++ nl
      ++ query ++ nl
      ++ nl
      ++ "**Instructions:**" ++ nl
      ++ "- Answer ONLY from the retrieved passages above" ++ nl
      ++ "- Cite specific passages using [passage_id] notation" ++ nl
      ++ "- If the retrieved context doesn't contain the answer, say: " ++ dq
      ++ "I cannot answer this question based on the provided book content. The available context does not contain sufficient information about [topic]."
      ++ dq ++ nl
  end.

Definition refusal_patterns : list string :=
  [ "I cannot answer this question";
    "The selected text does not contain";
    "The available context does not contain";
    "insufficient information" ]%list.

(** [any(pattern.lower() in answer.lower() for pattern in
    refusal_patterns)] *)
Definition matches_refusal (answer : string) : bool :=
  existsb (fun pattern => contains (lower pattern) (lower answer))
          refusal_patterns.

(** [_estimate_confidence]; its [context] argument is not read. *)
Definition _estimate_confidence (answer finish_reason context : string)
  : float :=
  let confidence := 0.5%float in
  let confidence :=
    if contains "[ch" answer || contains "[sec" answer
       || contains "[selected-text]" answer
    then (confidence + 0.2)%float else confidence in
  let confidence :=
    if (50 <=? length answer)%nat && (length answer <=? 500)%nat
    then (confidence + 0.2)%float
    else if (500 <? length answer)%nat then (confidence + 0.1)%float
    else confidence in
  let confidence :=
    if String.eqb finish_reason "stop" then (confidence + 0.1)%float
    else confidence in
  (* min(confidence, 1.0) *)
  if PrimFloat.ltb 1.0%float confidence then 1.0%float else confidence.

(** The generation provider: the chat completion called with the fixed
    system prompt, model and temperature, and the user prompt. It returns
    the message content, which the API allows to be absent, with the finish
    reason, or it raises. *)
Definition Completion : Type := string -> Outcome (option string * string).

(** The tuple [(answer, confidence, refused, refusal_reason)]. *)
Definition Generated : Type := string * float * bool * option string.

Definition generation_failed (msg : string) : Generated :=
  ("An error occurred while generating the answer. Please try again.",
   0.0%float, true, Some ("Error: " ++ msg)).

Definition generate_answer (complete : Completion) (query context : string)
    (mode : QueryMode) (user_context : option string) : Generated :=
  let user_prompt := build_prompt query context mode user_context in
  match complete user_prompt with
  | Raises msg => generation_failed msg
  | Returns (None, _) =>
      (* [None.strip()] raises an AttributeError inside the [try] *)
      generation_failed "'NoneType' object has no attribute 'strip'"
  | Returns (Some content, finish_reason) =>
      let answer := strip content in
      let refused := matches_refusal answer in
      if refused
      then (answer, 0.0%float, true,
            Some "Insufficient context to answer question")
      else (answer, _estimate_confidence answer finish_reason context,
            false, None)
  end.

End AnswerGeneration.

(** ** api/routes/chat.py *)

Module Chat.
Import PyStr Env Models.

Record ChatRequest := mkChatRequest {
  query : string;
  mode : QueryMode;
  context : option string
}.

(** [ChatResponse] without [query_id] and [latency_ms], which come from
    [uuid4()] and the clock. *)
Record ChatResponse := mkChatResponse {
  answer : string;
  sources : list Source;
  refused : bool;
  refusal_reason : option string;
  confidence : option float;
  resp_mode : QueryMode
}.

Definition REFUSAL_MESSAGE : string :=
  "I cannot answer this question based on the provided book content. "
  ++ "The available context does not contain sufficient information about the requested topic. "
  ++ "Please try:" ++ nl
  ++ "- Rephrasing your question" ++ nl
  ++ "- Selecting specific text from the book (selected-text mode)" ++ nl
  ++ "- Asking about topics covered in the book".

(** What the route does: it raises [HTTPException] 422 with a detail, or
    it returns a response. *)
Inductive ChatResult :=
| HTTP_422 (detail : string)
| Responds (r : ChatResponse).

(** Everything outside the process that [chat] reaches, and the text that
    [str(e)] gives for the validation error that [Source] raises on a
    snippet: the validator's message quotes the value it rejects, so the
    text is a function of the snippet. *)
Record World := mkWorld {
  settings : Settings;
  retrieval : Retrieval.Providers;
  complete : AnswerGeneration.Completion;
  validation_error : string -> string
}.

(** The [except Exception] branch of the route. *)
Definition internal_error (m : QueryMode) (msg : string) : ChatResponse :=
  mkChatResponse
    "An error occurred while processing your question. Please try again."
    [] true (Some ("Internal error: " ++ msg)) (Some 0.0%float) m.

(** [request.context if request.mode == QueryMode.SELECTED_TEXT else None] *)
Definition user_context_of (request : ChatRequest) : option string :=
  match mode request with
  | SELECTED_TEXT => Chat.context request
  | BOOK_WIDE => None
  end.

(** From [# Generate answer] to the final [return]. *)
Definition answer_with (W : World) (request : ChatRequest) (query : string)
    (context : string) (sources : list Source) : ChatResponse :=
  let '(answer, confidence, refused, refusal_reason) :=
    AnswerGeneration.generate_answer (complete W) query context
      (mode request) (user_context_of request) in
  let answer := if refused then REFUSAL_MESSAGE else answer in
  let sources := if (refused : bool) then [] else sources in
  mkChatResponse answer sources refused refusal_reason (Some confidence)
                 (mode request).

(** Where the route stands when it comes to [# Generate answer]: it has
    already returned or raised, or it goes on with the sanitized query, the
    context and the sources. *)
Inductive Prepared :=
| Stop (result : ChatResult)
| Generate (query context : string) (sources : list Source).

(** The route up to [# Generate answer]. *)
Definition prepare (W : World) (request : ChatRequest) : Prepared :=
  let query := Validation.sanitize_text (Chat.query request) in
  let (is_valid, error_msg) :=
    Validation.validate_query_text query 1 2000 in
  if negb is_valid then Stop (HTTP_422 error_msg)
  else
    let (is_valid, error_msg) :=
      Validation.validate_context_text (Chat.context request)
                                       (mode request) 1 10000 in
    if negb is_valid then Stop (HTTP_422 error_msg)
    else
      match mode request with
      | BOOK_WIDE =>
          let (chunks, sources) :=
            Retrieval.retrieve_and_rerank (settings W) (retrieval W) query in
          match chunks with
          | [] =>
              Stop (Responds
                      (mkChatResponse REFUSAL_MESSAGE [] true
                         (Some "No relevant content found in book")
                         (Some 0.0%float) (mode request)))
          | _ :: _ =>
              Generate query (Retrieval.get_context_text chunks) sources
          end
      | SELECTED_TEXT =>
          let context := get_or "" (Chat.context request) in
          let snippet :=
            if (200 <? length context)%nat
            then take 200 context ++ "..." else context in
          match new_Source "selected-text" "User-Selected Text"
                           "User Selection" None snippet with
          | None =>
              (* the validation error is caught by [except Exception] *)
              Stop (Responds
                      (internal_error (mode request)
                                      (validation_error W snippet)))
          | Some src => Generate query context [src]
          end
      end.

Definition chat (W : World) (request : ChatRequest) : ChatResult :=
  match prepare W request with
  | Stop result => result
  | Generate query context sources =>
      Responds (answer_with W request query context sources)
  end.

End Chat.

(** ** models/chunk.py and services/indexing_service.py *)

Module Indexing.
Import PyStr Env ContentExtractor.

(** [models/chunk.py]: an indexed chunk, without [id] and [created_at],
    which come from [uuid4()] and the clock. *)
Record Chunk := mkChunk {
  text : string;
  embedding : list float;
  chapter : string;
  section : string;
  page : option Z;
  passage_id : string;
  source_file : string
}.

(** The field pattern [^ch\d+-sec\d+-p\d+$] of [Chunk.passage_id]. *)
Definition passage_id_pattern (s : string) : bool :=
  match drop_prefix "ch" s with
  | None => false
  | Some r1 =>
      let (d1, r2) := span_digits r1 in
      match drop_prefix "-sec" r2 with
      | None => false
      | Some r3 =>
          let (d2, r4) := span_digits r3 in
          match drop_prefix "-p" r4 with
          | None => false
          | Some r5 =>
              let (d3, r6) := span_digits r5 in
              truthy d1 && truthy d2 && truthy d3 && negb (truthy r6)
          end
      end
  end.

(** [Chunk(...)]: [None] when a field constraint raises a validation
    error. *)
Definition new_Chunk (text : string) (embedding : list float)
    (chapter section : string) (page : option Z)
    (passage_id source_file : string) : option Chunk :=
  if (100 <=? length text)%nat && (length text <=? 2000)%nat
     && (List.length embedding =? 1536)%nat
     && (1 <=? length chapter)%nat
     && (1 <=? length section)%nat
     && match page with Some p => (1 <=? p)%Z | None => true end
     && passage_id_pattern passage_id
     && (1 <=? length source_file)%nat
  then Some (mkChunk text embedding chapter section page passage_id
                     source_file)
  else None.

(** [to_qdrant_payload], without [source_file] and [created_at], which the
    retrieval side does not read. *)
Definition to_qdrant_payload (c : Chunk) : Retrieval.Payload :=
  Retrieval.mkPayload (Some (text c)) (Some (chapter c)) (Some (section c))
                      (page c) (Some (passage_id c)).

(** [chunk_all_files]: the chunks of every file, in order. *)
Definition chunk_all_files (split_markdown_text : string -> list string)
    (processed_files : list ProcessedFile) : list ChunkingService.ChunkDict :=
  flat_map (ChunkingService.chunk_file split_markdown_text) processed_files.

(** The slices [l[i : i + n]] for [i in range(0, len(l), n)], with [n >= 1];
    [fuel] bounds the number of slices. *)
Fixpoint batches_from {A : Type} (fuel n : nat) (l : list A)
  : list (list A) :=
  match fuel with
  | O => []
  | S fuel' =>
      match l with
      | [] => []
      | _ :: _ => firstn n l :: batches_from fuel' n (skipn n l)
      end
  end.

Definition batches {A : Type} (n : nat) (l : list A) : list (list A) :=
  batches_from (List.length l) n l.

(** The providers of the indexing half: the batched embedding call may
    raise; the index wrapper [upsert_points] catches its own failures and
    answers the call number [k] with a boolean. *)
Record Providers := mkProviders {
  split_markdown_text : string -> list string;
  generate_embeddings_batch : list string -> Outcome (list (list float));
  upsert_points : nat -> list Chunk -> bool
}.

(** The inner loop over [zip(batch, embeddings)]: the chunks appended until
    a [Chunk] fails to validate; the exception ends the batch. *)
Fixpoint chunks_of_pairs
    (pairs : list (ChunkingService.ChunkDict * list float)) : list Chunk :=
  match pairs with
  | [] => []
  | (d, e) :: rest =>
      match new_Chunk (ChunkingService.text d) e
                      (ChunkingService.chapter d) (ChunkingService.section d)
                      (Some (ChunkingService.page d))
                      (ChunkingService.passage_id d)
                      (ChunkingService.source_file d) with
      | Some c => c :: chunks_of_pairs rest
      | None => []
      end
  end.

(** One iteration of the batch loop of [generate_embeddings_for_chunks]. *)
Definition embed_batch (P : Providers)
    (batch : list ChunkingService.ChunkDict) : list Chunk :=
  match generate_embeddings_batch P (map ChunkingService.text batch) with
  | Raises _ => []
  | Returns embeddings => chunks_of_pairs (combine batch embeddings)
  end.

(** [generate_embeddings_for_chunks]; [range] raises for a step of 0. *)
Definition generate_embeddings_for_chunks (P : Providers)
    (chunk_dicts : list ChunkingService.ChunkDict) (batch_size : nat)
  : Outcome (list Chunk) :=
  match batch_size with
  | O => Raises "range() arg 3 must not be zero"
  | S _ => Returns (flat_map (embed_batch P) (batches batch_size chunk_dicts))
  end.

(** The batch loop of [index_chunks], from call number [k]. *)
Fixpoint index_batches (P : Providers) (k : nat) (bs : list (list Chunk))
  : nat :=
  match bs with
  | [] => 0%nat
  | batch :: rest =>
      ((if upsert_points P k batch then List.length batch else 0)
       + index_batches P (S k) rest)%nat
  end.

Definition index_chunks (P : Providers) (chunks : list Chunk)
    (batch_size : nat) : Outcome nat :=
  match batch_size with
  | O => Raises "range() arg 3 must not be zero"
  | S _ => Returns (index_batches P 0 (batches batch_size chunks))
  end.

(** The [stats] dict of [index_all_content]. *)
Record Stats := mkStats {
  files_processed : nat;
  chunks_created : nat;
  chunks_embedded : nat;
  chunks_indexed : nat;
  errors : list string
}.

(** [index_all_content], from the files that [process_all_files] returned. *)
Definition index_all_content (P : Providers)
    (processed_files : list ProcessedFile) (batch_size : nat) : Stats :=
  let n_files := List.length processed_files in
  match processed_files with
  | [] => mkStats n_files 0 0 0 []
  | _ :: _ =>
      let chunk_dicts :=
        chunk_all_files (split_markdown_text P) processed_files in
      let n_created := List.length chunk_dicts in
      match chunk_dicts with
      | [] => mkStats n_files n_created 0 0 []
      | _ :: _ =>
          match generate_embeddings_for_chunks P chunk_dicts batch_size with
          | Raises msg => mkStats n_files n_created 0 0 [msg]
          | Returns chunks =>
              let n_embedded := List.length chunks in
              match chunks with
              | [] => mkStats n_files n_created n_embedded 0 []
              | _ :: _ =>
                  match index_chunks P chunks batch_size with
                  | Raises msg =>
                      mkStats n_files n_created n_embedded 0 [msg]
                  | Returns indexed_count =>
                      mkStats n_files n_created n_embedded indexed_count []
                  end
              end
          end
      end
  end.

End Indexing.

(** ** Vocabulary of the statements *)

Module Vocab.
Import PyStr.

(** [s] is made of decimal digits. *)
Fixpoint all_digits (s : string) : bool :=
  match s with
  | EmptyString => true
  | String c r => is_digit c && all_digits r
  end.

(** [s] does not start with a digit. *)
Definition no_digit_ahead (s : string) : bool :=
  match s with
  | EmptyString => true
  | String c _ => negb (is_digit c)
  end.

(** Every character of [s] satisfies [f]. *)
Fixpoint all_chars (f : ascii -> bool) (s : string) : bool :=
  match s with
  | EmptyString => true
  | String c r => f c && all_chars f r
  end.

(** [s] holds no space character. *)
Definition no_space (s : string) : bool :=
  all_chars (fun c => negb (Ascii.eqb c " ")) s.

(** [c * n] *)
Fixpoint replicate (n : nat) (c : ascii) : string :=
  match n with
  | O => EmptyString
  | S k => String c (replicate k c)
  end.

(** A cut of a text into [kept] and [rest] falls on a white space boundary,
    not inside a word: one of the two parts is empty, or [kept] ends with a
    white space character, or [rest] starts with one. *)
Definition at_whitespace_boundary (kept rest : string) : Prop :=
  kept = "" \/ rest = ""
  \/ (exists k c, kept = k ++ String c "" /\ is_space c = true)
  \/ (exists c r, rest = String c r /\ is_space c = true).

(** [snippet] is [text] cut at a white space boundary, with the ellipsis
    appended. *)
Definition cut_at_whitespace (text snippet : string) : Prop :=
  exists kept rest,
    text = kept ++ rest /\ snippet = kept ++ "..."
    /\ at_whitespace_boundary kept rest.

(** The snippet of a chunk text as C9 states it: the text itself when it
    fits 200 characters, otherwise a cut at a white space boundary with the
    ellipsis, and never more than 200 characters. *)
Definition snippet_as_stated (text : string) : Prop :=
  let snippet := ChunkingUtils.truncate_snippet text 200 in
  (length text <= 200 -> snippet = text)
  /\ (200 < length text -> cut_at_whitespace text snippet)
  /\ length snippet <= 200.

(** [s] holds no white space character. *)
Definition no_whitespace (s : string) : bool :=
  all_chars (fun c => negb (is_space c)) s.

(** [snippet] is a truncation of [text]: a part from the start of the text
    with the ellipsis appended. *)
Definition truncation_of (text snippet : string) : Prop :=
  exists kept rest, text = kept ++ rest /\ snippet = kept ++ "...".

(** The order of the keys of [sort_by_document_order]: [a] is not after
    [b]. *)
Definition key_le (a b : Retrieval.Chunk) : Prop :=
  Retrieval.tuple_ltb (Retrieval.get_sort_key b) (Retrieval.get_sort_key a)
  = false.

(** No line of [body] is a second-level heading for [extract_sections]. *)
Definition no_section_heading (body : string) : bool :=
  forallb (fun line =>
             match ContentExtractor.section_heading line with
             | None => true
             | Some _ => false
             end)
          (split_lines body).

(** [s] starts with a passage id in brackets: [[chN-secM-pP]], each of N, M
    and P a run of one or more digits. *)
Definition bracketed_id_ahead (s : string) : bool :=
  match drop_prefix "[ch" s with
  | None => false
  | Some r1 =>
      let (d1, r2) := span_digits r1 in
      match drop_prefix "-sec" r2 with
      | None => false
      | Some r3 =>
          let (d2, r4) := span_digits r3 in
          match drop_prefix "-p" r4 with
          | None => false
          | Some r5 =>
              let (d3, r6) := span_digits r5 in
              truthy d1 && truthy d2 && truthy d3 && prefix "]" r6
          end
      end
  end.

(** [s] holds a passage id in brackets. *)
Fixpoint has_bracketed_id (s : string) : bool :=
  bracketed_id_ahead s
  || match s with
     | EmptyString => false
     | String _ r => has_bracketed_id r
     end.

(** A citation marker as C8 words it: a passage id in bracket notation, or
    the selected-text sentinel. *)
Definition has_citation_marker (answer : string) : bool :=
  has_bracketed_id answer || contains "[selected-text]" answer.

(** The test that the heuristic makes instead: the answer holds one of the
    three texts [[ch], [[sec] and [[selected-text]], whatever follows
    them. *)
Definition has_marker_opening (answer : string) : bool :=
  contains "[ch" answer || contains "[sec" answer
  || contains "[selected-text]" answer.

(** 0.2 for a length within 50 to 500 characters, 0.1 for a longer answer,
    nothing for a shorter one. *)
Definition length_bonus (n : nat) : float :=
  if (n <? 50)%nat then 0%float
  else if (n <=? 500)%nat then 0.2%float
  else 0.1%float.

(** 0.5, plus 0.2 for an answer that is [marked], plus the length bonus,
    plus 0.1 for a clean stop, capped at 1.0. *)
Definition heuristic_with (marked : string -> bool)
    (answer finish_reason : string) : float :=
  let total :=
    (0.5 + (if marked answer then 0.2 else 0)
         + length_bonus (length answer)
         + (if String.eqb finish_reason "stop" then 0.1 else 0))%float in
  if PrimFloat.ltb 1%float total then 1%float else total.

(** The heuristic as C8 states it, on citation markers. *)
Definition heuristic_as_stated : string -> string -> float :=
  heuristic_with has_citation_marker.

(** The heuristic on the openings of a marker. *)
Definition additive_heuristic : string -> string -> float :=
  heuristic_with has_marker_opening.

(** C8 as it is stated, for the answer that the provider's [content] and
    [finish_reason] give to a book-wide question: when it is not refused,
    its confidence is the heuristic on citation markers. *)
Definition confidence_as_stated (content finish_reason : string) : Prop :=
  forall answer confidence reason,
    AnswerGeneration.generate_answer
      (fun _ => Env.Returns (Some content, finish_reason))
      "What does the figure show?" "" Models.BOOK_WIDE None
    = (answer, confidence, false, reason) ->
    confidence = heuristic_as_stated answer finish_reason.

(** How many of the retrieved chunks are of chapter [ch]. *)
Definition chunk_count (chunks : list Retrieval.Chunk) (ch : string) : nat :=
  count_occ string_dec (map Retrieval.chapter_of chunks) ch.

(** [m] is the majority chapter of [chunks]: a chapter of the highest chunk
    count and, among these, the one met first in retrieval order. *)
Definition majority_chapter (chunks : list Retrieval.Chunk) (m : string)
  : Prop :=
  In m (map Retrieval.chapter_of chunks)
  /\ (forall ch, chunk_count chunks ch <= chunk_count chunks m)
  /\ (forall ch, ch <> m -> chunk_count chunks ch = chunk_count chunks m ->
        exists before after,
          map Retrieval.chapter_of chunks = (before ++ m :: after)%list
          /\ ~ In ch before).

(** The chunk [c] with its boosted score: the score times 1.1 in chapter
    [m], the score itself elsewhere. *)
Definition boosted_for (m : string) (c : Retrieval.Chunk) : Retrieval.Chunk :=
  Retrieval.mkChunk (Retrieval.id c) (Retrieval.score c) (Retrieval.payload c)
    (Some (if String.eqb (Retrieval.chapter_of c) m
           then (Retrieval.score c * 1.1)%float
           else Retrieval.score c)).

(** The counting loop on the chapters alone. *)
Definition counts_of (chapters : list string) (acc : list (string * nat))
  : list (string * nat) :=
  fold_left (fun counts ch => Retrieval.bump ch counts) chapters acc.

(** What the loop keeps true between the chapters [seen] so far and the
    dict [counts]. *)
Record counted (seen : list string) (counts : list (string * nat)) : Prop := {
  counted_value : forall k v, In (k, v) counts ->
                              v = count_occ string_dec seen k /\ In k seen;
  counted_keys : forall k, In k seen -> In k (map fst counts);
  counted_nodup : NoDup (map fst counts);
  counted_order : forall pre a post k,
      map fst counts = (pre ++ a :: post)%list -> In k post ->
      exists p q, seen = (p ++ a :: q)%list /\ ~ In k p
}.

(** The request passes the two validations of the route. *)
Definition accepted (request : Chat.ChatRequest) : bool :=
  fst (Validation.validate_query_text
         (Validation.sanitize_text (Chat.query request)) 1 2000)
  && fst (Validation.validate_context_text
            (Chat.context request) (Chat.mode request) 1 10000).

(** [p] starts with a character that is no white space. *)
Definition starts_tight (p : string) : bool :=
  match p with
  | EmptyString => false
  | String a _ => negb (is_space a)
  end.

(** [p] is empty or ends with a character that is no white space. *)
Fixpoint ends_tight (p : string) : bool :=
  match p with
  | EmptyString => true
  | String a EmptyString => negb (is_space a)
  | String _ p' => ends_tight p'
  end.

End Vocab.

(** ** Sample worlds for the chat route *)

Module Examples.
Import PyStr Env Models Chat.

(** A passage as the indexing pipeline stores it. *)
Definition indexed_chunk : Retrieval.Chunk :=
  Retrieval.mkChunk "7f3c" 0.9%float
    (Retrieval.mkPayload
       (Some "The optimal chunk size is 500-1000 tokens.")
       (Some "Chapter 3: RAG Systems") (Some "3.2 Retrieval Strategies")
       (Some 45%Z) (Some "ch3-sec2-p45"))
    None.

(** A point of the index whose payload has no text. *)
Definition point_without_text : Retrieval.Chunk :=
  Retrieval.mkChunk "9a1e" 0.9%float
    (Retrieval.mkPayload None
       (Some "Chapter 3: RAG Systems") (Some "3.2 Retrieval Strategies")
       (Some 45%Z) (Some "ch3-sec2-p45"))
    None.

(** The text of a validation error of [Source] in the sample worlds: the
    constraint that failed and the snippet it failed on. *)
Definition source_error (snippet : string) : string :=
  "1 validation error for Source" ++ nl ++ "snippet" ++ nl
  ++ "  String should have at most 200 characters [type=string_too_long, "
  ++ "input_value='" ++ snippet ++ "', input_type=str]".

(** A world with the default settings, whose index answers every search
    with [found], and whose two other providers always behave as given. *)
Definition world_of (found : list Retrieval.Chunk)
    (embedding : Outcome (list float))
    (completion : Outcome (option string * string)) : World :=
  mkWorld default_settings
    (Retrieval.mkProviders (fun _ => embedding) (fun _ _ _ => found))
    (fun _ => completion)
    source_error.

Definition world := world_of [indexed_chunk].

Definition book_question : ChatRequest :=
  mkChatRequest "What is the optimal chunk size?" BOOK_WIDE None.

End Examples.

(** ** Vocabulary of the further properties *)

Module Props.
Import PyStr Vocab.

(** A character that [sanitize_text] may leave: no control character, and
    no white space other than the space. *)
Definition plain_char (c : ascii) : bool :=
  negb (Validation.is_control c) && (negb (is_space c) || Ascii.eqb c " ").

(** No two white space characters stand side by side in [s]. *)
Fixpoint single_spaced (s : string) : bool :=
  match s with
  | EmptyString => true
  | String a r =>
      match r with
      | EmptyString => true
      | String b _ => negb (is_space a && is_space b) && single_spaced r
      end
  end.

(** [s] starts with a white space character. *)
Definition starts_with_space (s : string) : bool :=
  match s with
  | EmptyString => false
  | String a _ => is_space a
  end.

(** [s] is in the form that [sanitize_text] gives: plain characters, words
    separated by single spaces, no space at either end. *)
Definition sanitized (s : string) : bool :=
  all_chars plain_char s && single_spaced s && String.eqb (strip s) s.

(** The request names a mode that its context does not fit: selected-text
    without a context, or book-wide with one. *)
Definition mode_mismatch (request : Chat.ChatRequest) : bool :=
  match Chat.mode request with
  | Models.SELECTED_TEXT => Validation.falsy_opt (Chat.context request)
  | Models.BOOK_WIDE => negb (Validation.falsy_opt (Chat.context request))
  end.

(** The detail of the 422 answer to such a request. *)
Definition mismatch_detail (m : Models.QueryMode) : string :=
  match m with
  | Models.SELECTED_TEXT => "Context is required for selected-text mode"
  | Models.BOOK_WIDE => "Context must not be provided for book-wide mode"
  end.

(** The sanitized query passes [validate_query_text]. *)
Definition query_accepted (request : Chat.ChatRequest) : bool :=
  fst (Validation.validate_query_text
         (Validation.sanitize_text (Chat.query request)) 1 2000).

(** The text [str(e)] of the exception that [generate_answer] catches, when
    the completion fails: the provider raised, or its content is absent. *)
Definition failure_text (o : Env.Outcome (option string * string))
  : option string :=
  match o with
  | Env.Raises msg => Some msg
  | Env.Returns (None, _) => Some "'NoneType' object has no attribute 'strip'"
  | Env.Returns (Some _, _) => None
  end.

(** [pid] has the form of the passage id of a citation: the sentinel
    [selected-text], or [chN-secM-pP] with N, M and P runs of one or more
    digits. *)
Definition citation_form (pid : string) : Prop :=
  pid = "selected-text"
  \/ exists c s p,
       (all_digits c && truthy c) = true
       /\ (all_digits s && truthy s) = true
       /\ (all_digits p && truthy p) = true
       /\ pid = "ch" ++ c ++ "-sec" ++ s ++ "-p" ++ p.

(** A payload from which [chunks_to_sources] builds a citation: a passage
    id that the pattern of [Source] accepts, a non-empty text, no empty
    chapter or section, and no page below 1. *)
Definition citable (p : Retrieval.Payload) : bool :=
  match Retrieval.passage_id p with
  | Some pid => Models.passage_id_pattern pid
  | None => false
  end
  && truthy (get_or "Unknown Chapter" (Retrieval.chapter p))
  && truthy (get_or "Unknown Section" (Retrieval.section p))
  && match Retrieval.page p with Some n => (1 <=? n)%Z | None => true end
  && truthy (get_or "" (Retrieval.text p)).

(** The citation of a citable payload. *)
Definition citation_of (p : Retrieval.Payload) : Models.Source :=
  Models.mkSource
    (get_or "unknown" (Retrieval.passage_id p))
    (get_or "Unknown Chapter" (Retrieval.chapter p))
    (get_or "Unknown Section" (Retrieval.section p))
    (Retrieval.page p)
    (ChunkingUtils.truncate_snippet (get_or "" (Retrieval.text p)) 200).

(** The passage id of the chunk parses; a chunk without one counts with the
    default id of [get_sort_key]. *)
Definition parseable (c : Retrieval.Chunk) : bool :=
  Validation.is_valid_passage_id
    (get_or "ch0-sec0-p0" (Retrieval.passage_id (Retrieval.payload c))).

(** The key that [get_sort_key] gives to a chunk that does not parse. *)
Definition fallback_key : Z * Z * Z := (999, 999, 999)%Z.

(** [a] and [b] are the same search result, up to the boosted score. *)
Definition same_result (a b : Retrieval.Chunk) : Prop :=
  Retrieval.id a = Retrieval.id b
  /\ Retrieval.score a = Retrieval.score b
  /\ Retrieval.payload a = Retrieval.payload b.

(** The chapter number that [chunk_file] writes into the passage ids of a
    file. *)
Definition file_chapter_num (f : ContentExtractor.ProcessedFile) : Z :=
  get_or 0%Z
    (ContentExtractor.chapter_num
       (ChunkingService.effective_chapter_info
          (ContentExtractor.chapter_info f))).

(** The chunk that [chunk_section] makes of the piece [text] at index [i]. *)
Definition chunk_at (info : ContentExtractor.ChapterInfo)
    (section_title : string) (section_num : Z) (source_file : string)
    (i : nat) (text : string) : ChunkingService.ChunkDict :=
  ChunkingService.mkChunkDict text
    (get_or "Unknown Chapter" (ContentExtractor.chapter_full info))
    section_title
    (Z.of_nat i + 1)
    (ChunkingUtils.generate_passage_id
       (get_or 0%Z (ContentExtractor.chapter_num info)) section_num
       (Z.of_nat i + 1))
    source_file.

(** The stripped titles of the heading lines among [lines], in order. *)
Fixpoint heading_titles (lines : list string) : list string :=
  match lines with
  | [] => []
  | l :: ls =>
      match ContentExtractor.section_heading l with
      | Some g => strip g :: heading_titles ls
      | None => heading_titles ls
      end
  end.

(** A section as [extract_sections] returns them: a non-empty title, and
    title and content without white space at either end. *)
Definition trimmed_section (s : ContentExtractor.Section_) : Prop :=
  truthy (ContentExtractor.section_title s) = true
  /\ strip (ContentExtractor.section_title s)
     = ContentExtractor.section_title s
  /\ strip (ContentExtractor.section_content s)
     = ContentExtractor.section_content s.

(** The first line of [body] is a second-level heading. *)
Definition starts_with_heading (body : string) : bool :=
  match split_lines body with
  | l :: _ =>
      match ContentExtractor.section_heading l with
      | Some _ => true
      | None => false
      end
  | [] => false
  end.

(** The chunk that [generate_embeddings_for_chunks] builds from a chunk
    dict and its embedding. *)
Definition chunk_of (d : ChunkingService.ChunkDict) (e : list float)
  : Indexing.Chunk :=
  Indexing.mkChunk (ChunkingService.text d) e (ChunkingService.chapter d)
    (ChunkingService.section d) (Some (ChunkingService.page d))
    (ChunkingService.passage_id d) (ChunkingService.source_file d).

(** [Chunk(...)] on the fields of a chunk dict and an embedding. *)
Definition model_chunk (d : ChunkingService.ChunkDict) (e : list float)
  : option Indexing.Chunk :=
  Indexing.new_Chunk (ChunkingService.text d) e (ChunkingService.chapter d)
    (ChunkingService.section d) (Some (ChunkingService.page d))
    (ChunkingService.passage_id d) (ChunkingService.source_file d).

(** What the Chunk model asks of a chunk dict beyond [validate_chunk], and
    of its embedding. *)
Definition storable (d : ChunkingService.ChunkDict) (e : list float) : bool :=
  ChunkingService.validate_chunk d
  && (List.length e =? 1536)%nat
  && (1 <=? ChunkingService.page d)%Z
  && Indexing.passage_id_pattern (ChunkingService.passage_id d).

(** The statistics of a run are consistent: no more chunks indexed than
    embedded, no more embedded than created. *)
Definition consistent (st : Indexing.Stats) : Prop :=
  Indexing.chunks_indexed st <= Indexing.chunks_embedded st
  /\ Indexing.chunks_embedded st <= Indexing.chunks_created st.

End Props.

(** ** Sample data for the indexing half *)

Module Samples.
Import PyStr Vocab Env.

(** A chunk dict of the first section of a first chapter. *)
Definition dict (text : string) (page : Z) : ChunkingService.ChunkDict :=
  ChunkingService.mkChunkDict text "Chapter 1: Intro" "One" page
    (ChunkingUtils.generate_passage_id 1 1 page) "book/ch1.md".

(** A text of 100 characters, and one of 10. *)
Definition long_text : string := replicate 100 "a".
Definition short_text : string := "Too short.".

(** An embedding of 1536 zeros for every text. *)
Definition zero_vector (_ : string) : list float := repeat 0%float 1536.

(** Providers that embed every batch, with an index that answers every
    upsert with [ok]. *)
Definition indexer (ok : bool) : Indexing.Providers :=
  Indexing.mkProviders (fun s => [s])
    (fun texts => Returns (map zero_vector texts))
    (fun _ _ => ok).

End Samples.

(** * Properties *)

(** ** Strings: digits, prefixes, lengths *)

Section StringFacts.
Import PyStr Vocab.

Lemma span_digits_app (d rest : string) :
  all_digits d = true -> no_digit_ahead rest = true ->
  span_digits (d ++ rest) = (d, rest).
Proof.
  induction d as [|c d IH]; simpl; intros Hd Hr.
  - destruct rest as [|c r]; simpl in *; [reflexivity|].
    apply negb_true_iff in Hr. now rewrite Hr.
  - apply andb_true_iff in Hd as [Hc Hd].
    now rewrite Hc, IH.
Qed.

Lemma drop_prefix_app (p s : string) : drop_prefix p (p ++ s) = Some s.
Proof.
  induction p as [|a p IH]; simpl.
  - now destruct s.
  - now rewrite Ascii.eqb_refl.
Qed.

Lemma all_digits_uint (d : Decimal.uint) :
  all_digits (NilEmpty.string_of_uint d) = true.
Proof. induction d; simpl; auto. Qed.

Lemma uint_string_nonempty (d : Decimal.uint) :
  d <> Decimal.Nil -> truthy (NilEmpty.string_of_uint d) = true.
Proof. destruct d; simpl; congruence. Qed.

Lemma to_uint_nonnil (p : positive) : Pos.to_uint p <> Decimal.Nil.
Proof.
  intros H. pose proof (DecimalPos.Unsigned.of_to p) as E.
  rewrite H in E. discriminate E.
Qed.

(** [str(n)] of a natural number is a non-empty string of digits. *)
Lemma str_of_int_digits (n : Z) :
  (0 <= n)%Z ->
  all_digits (str_of_int n) = true /\ truthy (str_of_int n) = true.
Proof.
  intros Hn. destruct n as [|p|p]; [now split| |lia].
  unfold str_of_int; simpl. split.
  - apply all_digits_uint.
  - apply uint_string_nonempty, to_uint_nonnil.
Qed.

(** [int(str(n)) == n] for a natural number. *)
Lemma int_of_str (n : Z) :
  (0 <= n)%Z -> int_of_digits (str_of_int n) = Some n.
Proof.
  intros Hn. destruct n as [|p|p]; [reflexivity| |lia].
  unfold int_of_digits, str_of_int; simpl.
  pose proof (to_uint_nonnil p) as Hnil.
  replace (NilZero.uint_of_string (NilEmpty.string_of_uint (Pos.to_uint p)))
    with (Some (Pos.to_uint p)).
  - simpl. unfold Z.of_uint. now rewrite DecimalPos.Unsigned.of_to.
  - symmetry. rewrite <- (NilZero.usu (Pos.to_uint p) Hnil).
    unfold NilZero.string_of_uint. now destruct (Pos.to_uint p).
Qed.

End StringFacts.

(** ** Passage identifiers: rendering and parsing *)

Section PassageIds.
Import PyStr Validation ChunkingUtils.

(** Parsing a rendered identifier gives the numbers back, for natural
    numbers. *)
Lemma extract_generate_nonneg (c s p : Z) :
  (0 <= c)%Z -> (0 <= s)%Z -> (0 <= p)%Z ->
  extract_passage_id_components (generate_passage_id c s p)
  = Some (c, s, p).
Proof.
  intros Hc Hs Hp.
  destruct (str_of_int_digits c Hc) as [Dc _].
  destruct (str_of_int_digits s Hs) as [Ds _].
  destruct (str_of_int_digits p Hp) as [Dp _].
  unfold extract_passage_id_components, generate_passage_id.
  rewrite drop_prefix_app.
  rewrite (span_digits_app _ _ Dc) by reflexivity.
  rewrite drop_prefix_app.
  rewrite (span_digits_app _ _ Ds) by reflexivity.
  rewrite drop_prefix_app.
  replace (str_of_int p) with (str_of_int p ++ "") at 1
    by (clear; induction (str_of_int p); simpl; congruence).
  rewrite (span_digits_app _ _ Dp) by reflexivity.
  simpl. now rewrite !int_of_str.
Qed.

(** C6. For all positive integers chapter, section and page, parsing the
    rendered passage identifier ch{chapter}-sec{section}-p{page} returns
    exactly the triple: extract_passage_id_components(generate_passage_id(c,
    s, p)) == (c, s, p). *)
Theorem passage_id_round_trip (c s p : Z) :
  (0 < c)%Z -> (0 < s)%Z -> (0 < p)%Z ->
  extract_passage_id_components (generate_passage_id c s p)
  = Some (c, s, p).
Proof. intros; apply extract_generate_nonneg; lia. Qed.

Lemma passage_id_round_trip_witness :
  generate_passage_id 3 2 45 = "ch3-sec2-p45"
  /\ extract_passage_id_components (generate_passage_id 3 2 45)
     = Some (3, 2, 45)%Z.
Proof.
  split; [reflexivity|].
  apply (passage_id_round_trip 3 2 45); lia.
Defined.

End PassageIds.

(** ** Citation snippets *)

Section Snippets.
Import PyStr Vocab ChunkingUtils.

Lemma length_app (a b : string) : length (a ++ b) = length a + length b.
Proof. induction a; simpl; congruence. Qed.

Lemma append_nil_r (a : string) : a ++ "" = a.
Proof. induction a; simpl; congruence. Qed.

Lemma append_assoc (a b c : string) : (a ++ b) ++ c = a ++ b ++ c.
Proof. induction a; simpl; congruence. Qed.

Lemma length_take (n : nat) (s : string) :
  length (take n s) = Nat.min n (length s).
Proof.
  revert s; induction n as [|n IH]; intros [|c s]; simpl; auto.
Qed.

(** [s[:n]] is a prefix of [s]. *)
Lemma take_prefix (n : nat) (s : string) : exists rest, s = take n s ++ rest.
Proof.
  revert s; induction n as [|n IH]; intros s.
  - exists s. now destruct s.
  - destruct s as [|c s]; [now exists ""|].
    destruct (IH s) as [rest E]. exists rest. simpl. now rewrite <- E.
Qed.

(** With a space in [s], [rsplit] cuts just before the last one. *)
Lemma before_last_space_some (s h : string) :
  before_last_space s = Some h ->
  exists tail, s = h ++ " " ++ tail /\ no_space tail = true.
Proof.
  revert h; induction s as [|c s IH]; simpl; intros h E; [discriminate|].
  destruct (before_last_space s) as [h'|] eqn:B.
  - injection E as <-. destruct (IH h' eq_refl) as [tail [-> T]].
    now exists tail.
  - destruct (Ascii.eqb_spec c " ") as [->|]; [|discriminate].
    injection E as <-. exists s. split; [reflexivity|].
    clear IH. induction s as [|d s IHs]; [reflexivity|].
    simpl in B. destruct (before_last_space s); [discriminate|].
    unfold no_space; simpl.
    destruct (Ascii.eqb d " "); [discriminate|]. now apply IHs.
Qed.

Lemma before_last_space_none (s : string) :
  before_last_space s = None -> no_space s = true.
Proof.
  induction s as [|d s IHs]; [reflexivity|]. simpl.
  destruct (before_last_space s); [discriminate|].
  unfold no_space; simpl.
  destruct (Ascii.eqb d " "); [discriminate|]. intros _. now apply IHs.
Qed.

Lemma length_rsplit1_head (s : string) : length (rsplit1_head s) <= length s.
Proof.
  unfold rsplit1_head.
  destruct (before_last_space s) as [h|] eqn:B; simpl; [|lia].
  destruct (before_last_space_some _ _ B) as [tail [E _]].
  rewrite E, length_app. lia.
Qed.

Lemma all_chars_append (f : ascii -> bool) (a b : string) :
  all_chars f (a ++ b) = all_chars f a && all_chars f b.
Proof.
  induction a as [|c a IH]; simpl; [reflexivity|].
  now rewrite IH, andb_assoc.
Qed.

(** The snippet of a word of 201 letters. *)
Lemma truncate_snippet_of_one_word :
  truncate_snippet (replicate 201 "a") 200 = replicate 197 "a" ++ "...".
Proof. vm_compute; reflexivity. Qed.

(** C9 as it is stated fails on a text of 201 letters without a space: its
    snippet is the first 197 letters and the ellipsis, a cut inside the
    word, since the text holds no white space for the cut to fall on. *)
Lemma truncate_snippet_cuts_inside_a_word :
  ~ snippet_as_stated (replicate 201 "a").
Proof.
  intros (_ & H & _).
  destruct H as (kept & rest & E & S & B); [vm_compute; lia|].
  rewrite truncate_snippet_of_one_word in S.
  assert (A : all_chars (fun c => negb (is_space c)) (replicate 201 "a") = true)
    by (vm_compute; reflexivity).
  rewrite E, all_chars_append in A. apply andb_true_iff in A as [A1 A2].
  destruct B as [->|[->|[(k & c & -> & Hc)|(c & r & -> & Hc)]]].
  - vm_compute in S. discriminate S.
  - rewrite append_nil_r in E. subst kept.
    apply (f_equal length) in S. vm_compute in S. discriminate S.
  - rewrite all_chars_append in A1. simpl in A1. rewrite Hc in A1.
    simpl in A1. rewrite andb_false_r in A1. discriminate A1.
  - simpl in A2. rewrite Hc in A2. discriminate A2.
Qed.

(** Where the cut of a long text falls: before the last space among the
    first 197 characters, or after these when they hold no space. *)
Lemma truncate_snippet_cut (text : string) :
  let snippet := truncate_snippet text 200 in
  (length text <= 200 -> snippet = text)
  /\ (200 < length text ->
      exists kept, snippet = kept ++ "..."
        /\ ((exists tail rest,
               text = kept ++ " " ++ tail ++ rest
               /\ length (kept ++ " " ++ tail) = 197
               /\ no_space tail = true)
            \/ (exists rest,
                  text = kept ++ rest /\ length kept = 197
                  /\ no_space kept = true)))
  /\ length snippet <= 200.
Proof.
  cbv zeta. unfold truncate_snippet.
  destruct (Nat.leb_spec (length text) 200) as [Hle|Hgt].
  - repeat split; auto; lia.
  - change (200 - 3) with 197.
    assert (L : length (take 197 text) = 197)
      by (rewrite length_take; lia).
    destruct (take_prefix 197 text) as [rest E].
    split; [lia|]. split.
    + intros _. exists (rsplit1_head (take 197 text)).
      split; [reflexivity|]. unfold rsplit1_head.
      destruct (before_last_space (take 197 text)) as [h|] eqn:B; simpl.
      * left. destruct (before_last_space_some _ _ B) as [tail [T N]].
        exists tail, rest. repeat split; auto.
        -- rewrite E at 1. rewrite T. now rewrite append_assoc.
        -- simpl in T. now rewrite <- T.
      * right. exists rest. repeat split; auto.
        now apply before_last_space_none.
    + rewrite length_app. pose proof (length_rsplit1_head (take 197 text)).
      change (length "...") with 3. lia.
Qed.

Lemma take_app_exact (k r : string) : take (length k) (k ++ r) = k.
Proof. induction k as [|c k IH]; simpl; [now destruct r|now rewrite IH]. Qed.

(** Fifty lines of one word each hold no space: the cut falls after the
    first 197 characters, inside the fortieth word. *)
Lemma truncate_snippet_between_line_breaks :
  truncate_snippet (String.concat "" (repeat ("word" ++ nl) 50)) 200
  = String.concat "" (repeat ("word" ++ nl) 39) ++ "wo" ++ "...".
Proof. vm_compute; reflexivity. Qed.

(** C9, amended. For every chunk text, the citation snippet is the text
    itself when it has at most 200 characters. Otherwise it is a truncation
    of the text with the ellipsis appended, of at most 200 characters; it is
    cut at a white space boundary when the first 197 characters hold a space,
    and it is these 197 characters and the ellipsis when they hold no white
    space at all. *)
Theorem truncate_snippet_spec (text : string) :
  let snippet := truncate_snippet text 200 in
  (length text <= 200 -> snippet = text)
  /\ (200 < length text ->
      truncation_of text snippet
      /\ (no_space (take 197 text) = false -> cut_at_whitespace text snippet)
      /\ (no_whitespace (take 197 text) = true ->
          snippet = take 197 text ++ "..."))
  /\ length snippet <= 200.
Proof.
  destruct (truncate_snippet_cut text) as (Short & Long & Bound).
  cbv zeta. split; [exact Short|]. split; [|exact Bound].
  intros L. destruct (Long L) as (kept & S & Cut). rewrite S.
  destruct Cut as [(tail & rest & E & N & T)|(rest & E & N & T)].
  - assert (P : take 197 text = kept ++ " " ++ tail).
    { assert (E' : text = (kept ++ " " ++ tail) ++ rest).
      { rewrite E. clear. induction kept as [|c k IH]; simpl.
        - reflexivity.
        - f_equal. exact IH. }
      rewrite <- N, E' at 1. apply take_app_exact. }
    split; [|split].
    + exists kept, (" " ++ tail ++ rest). now split.
    + intros _. exists kept, (" " ++ tail ++ rest). repeat split; auto.
      right. right. right. exists " "%char, (tail ++ rest). now split.
    + intros W. exfalso. rewrite P in W. unfold no_whitespace in W.
      rewrite all_chars_append in W. apply andb_true_iff in W as [_ W].
      simpl in W. discriminate W.
  - assert (P : take 197 text = kept)
      by (rewrite <- N, E; apply take_app_exact).
    split; [|split].
    + exists kept, rest. now split.
    + intros F. rewrite P, T in F. discriminate F.
    + intros _. now rewrite P.
Qed.

(** The snippet of a citation is the truncated text of its chunk. *)
Lemma chunk_to_source_snippet (c : Retrieval.Chunk) (src : Models.Source) :
  Retrieval.chunk_to_source c = Some src ->
  Models.snippet src
  = truncate_snippet (get_or "" (Retrieval.text (Retrieval.payload c))) 200.
Proof.
  unfold Retrieval.chunk_to_source, Models.new_Source.
  destruct (_ && _); [|discriminate]. now intros [= <-].
Qed.

End Snippets.

(** ** Sorting *)

Section Sorting.
Import PyStr.
Context {A : Type} (first : A -> A -> bool).

Lemma insert_by_perm (x : A) (l : list A) :
  Permutation (insert_by first x l) (x :: l).
Proof.
  induction l as [|y l IH]; simpl; [reflexivity|].
  destruct (first y x); [|reflexivity].
  rewrite IH. apply perm_swap.
Qed.

(** A sort keeps the elements. *)
Lemma sorted_by_perm (l : list A) : Permutation (sorted_by first l) l.
Proof.
  induction l as [|x l IH]; simpl; [reflexivity|].
  rewrite insert_by_perm. now constructor.
Qed.

Lemma sorted_by_length (l : list A) : List.length (sorted_by first l) = List.length l.
Proof. apply Permutation_length, sorted_by_perm. Qed.

End Sorting.

(** ** The chunker *)

Section Chunker.
Import PyStr Vocab ContentExtractor ChunkingService.
Variable split_markdown_text : string -> list string.

Lemma chunk_texts_text info title n file idx (texts : list string) :
  map text (chunk_texts info title n file idx texts) = texts.
Proof.
  revert idx; induction texts as [|t ts IH]; intros idx; simpl;
    [reflexivity|now rewrite IH].
Qed.

Lemma chunk_texts_section info title n file idx (texts : list string) :
  Forall (fun c => section c = title)
         (chunk_texts info title n file idx texts).
Proof.
  revert idx; induction texts as [|t ts IH]; intros idx; simpl;
    constructor; auto.
Qed.

(** [chunk_section] turns every piece of the splitter into a chunk. *)
Lemma chunk_section_text content info title n file :
  map text (chunk_section split_markdown_text content info title n file)
  = split_markdown_text content.
Proof. apply chunk_texts_text. Qed.

(** Lines that are no headings only add to the pending content. *)
Lemma scan_without_heading (lines : list string) (st : Scan) :
  forallb (fun line => match section_heading line with
                       | None => true
                       | Some _ => false
                       end) lines = true ->
  fold_left scan_line lines st
  = mkScan (sections st) (current_section st)
           (current_content st ++ lines)%list.
Proof.
  revert st; induction lines as [|l ls IH]; intros st H; simpl in *.
  - rewrite app_nil_r. now destruct st.
  - apply andb_true_iff in H as [Hl Hls].
    rewrite IH by assumption. unfold scan_line.
    destruct (section_heading l); [discriminate|]. simpl.
    now rewrite <- app_assoc.
Qed.

Lemma extract_sections_without_heading (body : string) :
  no_section_heading body = true -> extract_sections body = [].
Proof.
  intros H. unfold extract_sections.
  now rewrite scan_without_heading.
Qed.

(** C10. For every processed file whose body holds no second-level heading,
    the extractor returns an empty section list and chunk_file does not
    discard the file: it makes one section of the whole body, titled with the
    chapter title (or Main Content when the chapter dict has none), and
    chunks all of it. *)
Theorem chunk_file_without_headings
    (path : string) (info : option ChapterInfo) (body : string) :
  no_section_heading body = true ->
  let info' := effective_chapter_info info in
  let title := get_or "Main Content" (chapter_title info') in
  let chunks := chunk_file split_markdown_text (process_body path info body) in
  extract_sections body = []
  /\ chunks = chunk_section split_markdown_text body info' title 1 path
  /\ map text chunks = split_markdown_text body
  /\ Forall (fun c => section c = title) chunks.
Proof.
  intros H info' title chunks.
  pose proof (extract_sections_without_heading body H) as E.
  assert (C : chunks
              = chunk_section split_markdown_text body info' title 1 path).
  { unfold chunks, chunk_file, process_body; simpl. rewrite E. simpl.
    apply app_nil_r. }
  repeat split; auto; rewrite C.
  - apply chunk_section_text.
  - apply chunk_texts_section.
Qed.

(** Sections come from headings: a body that yields a section has a line
    that is a second-level heading, so the text before the first heading is
    left out only when there is a heading. *)
Lemma sections_need_a_heading (body : string) :
  extract_sections body <> [] ->
  exists line, In line (split_lines body) /\ section_heading line <> None.
Proof.
  intros N.
  destruct (no_section_heading body) eqn:H.
  - now rewrite extract_sections_without_heading in N.
  - unfold no_section_heading in H.
    assert (X : existsb (fun line => negb match section_heading line with
                                          | None => true
                                          | Some _ => false
                                          end) (split_lines body) = true).
    { clear N. induction (split_lines body) as [|l ls IH]; simpl in *;
        [discriminate|].
      destruct (section_heading l); simpl in *; auto. }
    apply existsb_exists in X as [line [I P]].
    exists line. split; [assumption|].
    destruct (section_heading line); [discriminate|discriminate].
Qed.

End Chunker.

Section ChunkerExamples.
Import PyStr Vocab ContentExtractor ChunkingService.

Lemma chunk_file_without_headings_witness :
  let body := "# Chapter 1: Intro" ++ nl ++ nl ++ "No section heading here." in
  let info := Some (mkChapterInfo (Some 1%Z) (Some "Intro")
                                  (Some "Chapter 1: Intro")) in
  let chunks :=
    chunk_file (fun s => [s]) (process_body "book/ch1.md" info body) in
  no_section_heading body = true
  /\ extract_sections body = []
  /\ chunks = chunk_section (fun s => [s]) body
                (mkChapterInfo (Some 1%Z) (Some "Intro")
                               (Some "Chapter 1: Intro"))
                "Intro" 1 "book/ch1.md"
  /\ map text chunks = [body]
  /\ Forall (fun c => section c = "Intro") chunks.
Proof.
  split; [reflexivity|].
  apply (chunk_file_without_headings (fun s => [s]) "book/ch1.md"
           (Some (mkChapterInfo (Some 1%Z) (Some "Intro")
                                (Some "Chapter 1: Intro")))
           ("# Chapter 1: Intro" ++ nl ++ nl ++ "No section heading here.")).
  reflexivity.
Defined.

(** C7 fails on the code. [chunk_section] turns every piece that the
    splitter returns into a chunk of its output, whatever its length, and
    nothing in [chunk_section] or [chunk_file] calls [validate_chunk]: here a
    section of ten characters comes out as one chunk, which [validate_chunk]
    would have rejected as too short. *)
Theorem chunk_section_keeps_short_chunks :
  (forall split content info title n file,
      map text (chunk_section split content info title n file)
      = split content)
  /\ let out := chunk_section (fun s => [s]) "Too short."
                  default_chapter_info "Intro" 1 "book/ch1.md" in
     map text out = ["Too short."]
     /\ map validate_chunk out = [false].
Proof.
  split.
  - intros. apply chunk_section_text.
  - split; reflexivity.
Qed.

(** On a chunk with its required fields, [validate_chunk] is the length
    test of the claim: both bounds are included. *)
Lemma validate_chunk_bounds (c : ChunkDict) :
  truthy (chapter c) = true -> truthy (section c) = true ->
  truthy (passage_id c) = true -> truthy (source_file c) = true ->
  validate_chunk c
  = (100 <=? length (text c))%nat && (length (text c) <=? 2000)%nat.
Proof.
  intros H1 H2 H3 H4. unfold validate_chunk. rewrite H1, H2, H3, H4.
  destruct (text c) as [|a t] eqn:E; [reflexivity|].
  change (truthy (String a t)) with true. cbn [andb negb].
  destruct (Nat.ltb_spec (length (String a t)) 100);
  destruct (Nat.ltb_spec 2000 (length (String a t)));
  destruct (Nat.leb_spec 100 (length (String a t)));
  destruct (Nat.leb_spec (length (String a t)) 2000);
  try reflexivity; lia.
Qed.

End ChunkerExamples.

(** ** The confidence heuristic *)

Section Confidence.
Import PyStr Vocab Env AnswerGeneration.

(** [_estimate_confidence] computes the additive heuristic on the openings
    of a marker. *)
Lemma estimate_confidence_additive (answer finish_reason context : string) :
  _estimate_confidence answer finish_reason context
  = additive_heuristic answer finish_reason.
Proof.
  unfold _estimate_confidence, additive_heuristic, heuristic_with,
    has_marker_opening, length_bonus.
  destruct (contains "[ch" answer || contains "[sec" answer
            || contains "[selected-text]" answer);
  destruct (Nat.leb_spec 50 (length answer));
  destruct (Nat.leb_spec (length answer) 500);
  destruct (Nat.ltb_spec (length answer) 50);
  destruct (Nat.ltb_spec 500 (length answer));
  try lia;
  destruct (String.eqb finish_reason "stop"); reflexivity.
Qed.

(** The heuristic stays between 0.5 and 1.0, whatever counts as marked. *)
Lemma heuristic_with_bounds (marked : string -> bool)
    (answer finish_reason : string) :
  PrimFloat.leb 0.5 (heuristic_with marked answer finish_reason) = true
  /\ PrimFloat.leb (heuristic_with marked answer finish_reason) 1 = true.
Proof.
  unfold heuristic_with, length_bonus.
  destruct (marked answer);
  destruct (length answer <? 50)%nat;
  destruct (length answer <=? 500)%nat;
  destruct (String.eqb finish_reason "stop"); split; reflexivity.
Qed.

Lemma additive_heuristic_bounds (answer finish_reason : string) :
  PrimFloat.leb 0.5 (additive_heuristic answer finish_reason) = true
  /\ PrimFloat.leb (additive_heuristic answer finish_reason) 1 = true.
Proof. apply heuristic_with_bounds. Qed.

Lemma drop_prefix_prefix (p s r : string) :
  drop_prefix p s = Some r -> prefix p s = true.
Proof.
  revert s; induction p as [|a p IH]; intros s; [now destruct s|].
  destruct s as [|b s]; [discriminate|]. cbn [drop_prefix prefix].
  destruct (Ascii.eqb_spec a b) as [->|N].
  - destruct (ascii_dec b b); [apply IH|congruence].
  - discriminate.
Qed.

Lemma bracketed_id_opening (s : string) :
  bracketed_id_ahead s = true -> prefix "[ch" s = true.
Proof.
  unfold bracketed_id_ahead.
  destruct (drop_prefix "[ch" s) as [r|] eqn:D; [|discriminate].
  intros _. exact (drop_prefix_prefix _ _ _ D).
Qed.

Lemma has_bracketed_id_opening (s : string) :
  has_bracketed_id s = true -> contains "[ch" s = true.
Proof.
  induction s as [|c s IH]; intros H.
  - apply orb_true_iff in H as [H|H]; [|discriminate].
    apply bracketed_id_opening in H. discriminate H.
  - cbn [has_bracketed_id] in H. cbn [contains].
    apply orb_true_iff in H as [H|H]; apply orb_true_iff.
    + left. now apply bracketed_id_opening.
    + right. now apply IH.
Qed.

(** Every citation marker opens the way the heuristic looks for. *)
Lemma citation_marker_is_counted (answer : string) :
  has_citation_marker answer = true -> has_marker_opening answer = true.
Proof.
  unfold has_citation_marker, has_marker_opening. intros H.
  apply orb_true_iff in H as [H|H].
  - now rewrite (has_bracketed_id_opening _ H).
  - rewrite H. now rewrite orb_true_r.
Qed.

(** A bracketed word that is no passage id, in an answer of 22 characters
    that was cut off: the code counts it, C8 as stated does not. *)
Lemma confidence_of_a_bracketed_word :
  has_citation_marker "See the [chart] above." = false
  /\ _estimate_confidence "See the [chart] above." "length" ""
     = (0.5 + 0.2)%float
  /\ heuristic_as_stated "See the [chart] above." "length" = 0.5%float.
Proof. repeat split; vm_compute; reflexivity. Qed.

(** C8 as it is stated fails on the answer [See the [chart] above.]: it
    holds no citation marker, so the stated heuristic gives 0.5, while the
    code finds the opening of one in it and returns 0.7. *)
Lemma confidence_counts_a_bracketed_word :
  ~ confidence_as_stated "See the [chart] above." "length".
Proof.
  intros H.
  specialize (H "See the [chart] above." (0.5 + 0.2)%float None).
  destruct confidence_of_a_bracketed_word as (_ & _ & S).
  rewrite S in H.
  assert (E : (0.5 + 0.2)%float = 0.5%float)
    by (apply H; vm_compute; reflexivity).
  apply (f_equal (PrimFloat.ltb 0.6)) in E. vm_compute in E. discriminate E.
Qed.

(** C8, amended. For every non-refused answer, the confidence score equals
    the additive heuristic: 0.5, plus 0.2 when the answer holds one of the
    texts [[ch], [[sec] and [[selected-text]], as every answer with a
    citation marker does, plus 0.2 for a length within 50 to 500 characters
    or 0.1 for a longer answer, plus 0.1 for a clean stop, capped at 1.0;
    hence it lies in [0.5, 1.0]. *)
Theorem confidence_of_answered
    (complete : Completion) (query context : string)
    (mode : Models.QueryMode) (user_context : option string)
    (answer : string) (confidence : float) (reason : option string) :
  generate_answer complete query context mode user_context
  = (answer, confidence, false, reason) ->
  exists content finish_reason,
    complete (build_prompt query context mode user_context)
    = Returns (Some content, finish_reason)
    /\ answer = strip content
    /\ confidence = additive_heuristic answer finish_reason
    /\ (has_citation_marker answer = true ->
        has_marker_opening answer = true)
    /\ PrimFloat.leb 0.5 confidence = true
    /\ PrimFloat.leb confidence 1 = true.
Proof.
  unfold generate_answer, generation_failed.
  destruct (complete (build_prompt query context mode user_context))
    as [[[content|] finish_reason]|msg]; try discriminate.
  destruct (matches_refusal (strip content)); [discriminate|].
  intros [= <- <- <-].
  exists content, finish_reason.
  rewrite estimate_confidence_additive.
  pose proof (additive_heuristic_bounds (strip content) finish_reason) as [L U].
  repeat split; try assumption. apply citation_marker_is_counted.
Qed.

Lemma confidence_of_answered_witness :
  let complete : Completion :=
    fun _ => Returns (Some "Chunks of 500-1000 tokens work best [ch3-sec2-p45].",
                      "stop") in
  let answer := "Chunks of 500-1000 tokens work best [ch3-sec2-p45]." in
  generate_answer complete "What chunk size?" "" Models.BOOK_WIDE None
  = (answer, (0.5 + 0.2 + 0.2 + 0.1)%float, false, None)
  /\ exists content finish_reason,
      complete (build_prompt "What chunk size?" "" Models.BOOK_WIDE None)
      = Returns (Some content, finish_reason)
      /\ answer = strip content
      /\ (0.5 + 0.2 + 0.2 + 0.1)%float = additive_heuristic answer finish_reason
      /\ (has_citation_marker answer = true ->
          has_marker_opening answer = true)
      /\ PrimFloat.leb 0.5 (0.5 + 0.2 + 0.2 + 0.1) = true
      /\ PrimFloat.leb (0.5 + 0.2 + 0.2 + 0.1) 1 = true.
Proof.
  split; [vm_compute; reflexivity|].
  apply (confidence_of_answered
           (fun _ => Returns
              (Some "Chunks of 500-1000 tokens work best [ch3-sec2-p45].",
               "stop"))
           "What chunk size?" "" Models.BOOK_WIDE None
           "Chunks of 500-1000 tokens work best [ch3-sec2-p45]."
           (0.5 + 0.2 + 0.2 + 0.1)%float None).
  vm_compute; reflexivity.
Defined.

End Confidence.

(** ** Reranking: the chapter counts *)

Section ChapterCounts.
Import PyStr Vocab Retrieval.

Lemma chapter_counts_of (chunks : list Chunk) :
  chapter_counts chunks = counts_of (map chapter_of chunks) [].
Proof.
  unfold chapter_counts, counts_of. generalize (@nil (string * nat)).
  induction chunks as [|c cs IH]; intros acc; simpl; auto.
Qed.

(** A key that is present is incremented in place; a new key goes last. *)
Lemma bump_spec (ch : string) (counts : list (string * nat)) :
  (exists pre v post,
      counts = (pre ++ (ch, v) :: post)%list
      /\ ~ In ch (map fst pre)
      /\ bump ch counts = (pre ++ (ch, S v) :: post)%list)
  \/ (~ In ch (map fst counts) /\ bump ch counts = (counts ++ [(ch, 1)])%list).
Proof.
  induction counts as [|[k v] rest IH].
  - right. split; auto.
  - cbn [bump]. destruct (String.eqb_spec k ch) as [->|N].
    + left. exists [], v, rest. repeat split; auto.
    + destruct IH as [(pre & w & post & E & P & B)|[P B]]; rewrite B.
      * left. exists ((k, v) :: pre), w, post. rewrite E.
        repeat split; auto. simpl. intros [H|H]; auto.
      * right. split; auto. simpl. intros [H|H]; auto.
Qed.

Lemma count_occ_snoc (l : list string) (ch k : string) :
  count_occ string_dec (l ++ [ch]) k
  = count_occ string_dec l k + (if string_dec ch k then 1 else 0).
Proof.
  rewrite count_occ_app. simpl. destruct (string_dec ch k); reflexivity.
Qed.

Lemma counted_nil : counted [] [].
Proof.
  split; simpl; try tauto.
  - constructor.
  - intros [|] ? ? ? H; discriminate H.
Qed.

Lemma counted_present (seen : list string) (ch : string) (w : nat)
    (pre post : list (string * nat)) :
  ~ In ch (map fst pre) ->
  counted seen (pre ++ (ch, w) :: post) ->
  counted (seen ++ [ch]) (pre ++ (ch, S w) :: post).
Proof.
  intros P [V K D O].
  assert (KS : map fst (pre ++ (ch, S w) :: post)
               = map fst (pre ++ (ch, w) :: post))
    by (rewrite !map_app; reflexivity).
  assert (Q : ~ In ch (map fst post)).
  { rewrite map_app in D. simpl in D. apply NoDup_remove_2 in D.
    intros I. apply D, in_or_app. now right. }
  split.
  - intros k v I. rewrite count_occ_snoc, in_app_iff.
    apply in_app_or in I as [I|[I|I]].
    + destruct (V k v) as [-> S]; [apply in_or_app; auto|].
      split; [|auto]. destruct (string_dec ch k) as [<-|]; [|lia].
      exfalso. apply P. apply (in_map fst) in I. exact I.
    + injection I as <- <-.
      destruct (V ch w) as [-> S];
        [apply in_or_app; right; left; reflexivity|].
      split; [|auto]. destruct (string_dec ch ch); [lia|congruence].
    + destruct (V k v) as [-> S];
        [apply in_or_app; right; right; exact I|].
      split; [|auto]. destruct (string_dec ch k) as [<-|]; [|lia].
      exfalso. apply Q. apply (in_map fst) in I. exact I.
  - intros k I. rewrite KS. apply in_app_or in I as [I|[<-|[]]]; auto.
    rewrite map_app. apply in_or_app. right. left. reflexivity.
  - now rewrite KS.
  - intros pre' a post' k S I. rewrite KS in S.
    destruct (O _ _ _ _ S I) as (p & q & -> & N).
    exists p, (q ++ [ch])%list. split; [|assumption].
    now rewrite <- app_assoc.
Qed.

Lemma counted_new (seen : list string) (ch : string)
    (counts : list (string * nat)) :
  ~ In ch (map fst counts) ->
  counted seen counts ->
  counted (seen ++ [ch]) (counts ++ [(ch, 1)]).
Proof.
  intros P [V K D O].
  assert (NS : ~ In ch seen) by (intros I; apply P, K, I).
  split.
  - intros k v I. rewrite count_occ_snoc, in_app_iff.
    apply in_app_or in I as [I|[I|[]]].
    + destruct (V k v I) as [-> S]. split; [|auto].
      destruct (string_dec ch k) as [<-|]; [contradiction|lia].
    + injection I as <- <-.
      rewrite (proj1 (count_occ_not_In string_dec seen ch) NS).
      split; [|right; left; reflexivity].
      destruct (string_dec ch ch); [reflexivity|congruence].
  - intros k I. rewrite map_app. apply in_or_app.
    apply in_app_or in I as [I|[<-|[]]]; [left; auto|right; left; reflexivity].
  - rewrite map_app. apply NoDup_app; auto.
    + repeat constructor. simpl. tauto.
    + intros a I [<-|[]]. contradiction.
  - intros pre a post k S I. rewrite map_app in S. simpl in S.
    destruct (exists_last (l := post)) as (post0 & z & ->);
      [intros ->; contradiction|].
    change (pre ++ a :: post0 ++ [z])%list
      with (pre ++ (a :: post0) ++ [z])%list in S.
    rewrite app_assoc in S. apply app_inj_tail in S as [S <-].
    apply in_app_or in I as [I|[<-|[]]].
    + destruct (O _ _ _ _ S I) as (p & q & -> & N).
      exists p, (q ++ [ch])%list. split; [|assumption].
      now rewrite <- app_assoc.
    + assert (Ia : In a (map fst counts))
        by (rewrite S; apply in_or_app; right; left; reflexivity).
      apply in_map_iff in Ia as ([a' v] & <- & Ia).
      destruct (V _ _ Ia) as [_ Is]. simpl in *.
      apply in_split in Is as (p & q & ->).
      exists p, (q ++ [ch])%list. split; [now rewrite <- app_assoc|].
      intros Ip. apply NS, in_or_app. now left.
Qed.

Lemma counted_step (seen : list string) (counts : list (string * nat))
    (ch : string) :
  counted seen counts -> counted (seen ++ [ch]) (bump ch counts).
Proof.
  intros C.
  destruct (bump_spec ch counts) as [(pre & w & post & E & P & B)|[P B]];
    rewrite B.
  - subst counts. now apply counted_present.
  - now apply counted_new.
Qed.

Lemma counted_loop (chapters seen : list string)
    (counts : list (string * nat)) :
  counted seen counts ->
  counted (seen ++ chapters) (counts_of chapters counts).
Proof.
  revert seen counts; induction chapters as [|ch rest IH];
    intros seen counts C; simpl.
  - now rewrite app_nil_r.
  - change (seen ++ ch :: rest)%list with (seen ++ [ch] ++ rest)%list.
    rewrite app_assoc. apply IH, counted_step, C.
Qed.

(** The dict of [rerank_by_section_proximity] counts the chunks of each
    chapter, with the chapters in the order in which they are first met. *)
Lemma chapter_counts_counted (chunks : list Chunk) :
  counted (map chapter_of chunks) (chapter_counts chunks).
Proof.
  rewrite chapter_counts_of. apply (counted_loop _ [] []), counted_nil.
Qed.

(** [max] returns the first of the keys with the greatest count. *)
Lemma max_from_spec (best : string * nat) (rest : list (string * nat)) :
  exists pre v post,
    best :: rest = (pre ++ (max_from best rest, v) :: post)%list
    /\ Forall (fun x => snd x < v) pre
    /\ Forall (fun x => snd x <= v) post.
Proof.
  revert best; induction rest as [|kv rest IH]; intros best; cbn [max_from].
  - exists [], (snd best), []. destruct best. repeat split; constructor.
  - destruct (Nat.ltb_spec (snd best) (snd kv)) as [L|L].
    + destruct (IH kv) as (pre & v & post & E & P & Q).
      exists (best :: pre), v, post. rewrite E. repeat split; auto.
      constructor; [|assumption].
      destruct pre as [|x pre]; simpl in E; injection E as E1 E2.
      * apply (f_equal snd) in E1. simpl in E1. lia.
      * subst x. inversion P; subst. lia.
    + destruct (IH best) as (pre & v & post & E & P & Q).
      destruct pre as [|x pre]; simpl in E; injection E as E1 E2.
      * exists [], v, (kv :: post). simpl.
        apply (f_equal snd) in E1 as E3. simpl in E3.
        split; [rewrite <- E1, E2; reflexivity|].
        split; [constructor|]. constructor; [lia|assumption].
      * subst x. exists (best :: kv :: pre), v, post.
        apply Forall_cons_iff in P as [P1 P2].
        split; [cbn [app]; do 2 f_equal; exact E2|].
        split; [|assumption].
        constructor; [assumption|]. constructor; [lia|assumption].
Qed.

End ChapterCounts.

(** ** Reranking *)

Section Rerank.
Import PyStr Vocab Env Retrieval.

(** The chapter that the code boosts is the majority chapter. *)
Lemma most_common_is_majority (chunks : list Chunk) :
  chunks <> [] ->
  exists m, most_common (chapter_counts chunks) = Some m
            /\ majority_chapter chunks m.
Proof.
  intros NE.
  pose proof (chapter_counts_counted chunks) as [V K D O].
  destruct (chapter_counts chunks) as [|kv rest] eqn:CC.
  - destruct chunks as [|c cs]; [congruence|].
    destruct (K (chapter_of c)); left; reflexivity.
  - simpl. exists (max_from kv rest). split; [reflexivity|].
    destruct (max_from_spec kv rest) as (pre & v & post & E & P & Q).
    set (m := max_from kv rest) in *.
    assert (Im : In (m, v) (kv :: rest))
      by (rewrite E; apply in_or_app; right; left; reflexivity).
    destruct (V _ _ Im) as [Vm Sm].
    assert (KE : map fst (kv :: rest)
                 = (map fst pre ++ m :: map fst post)%list)
      by (rewrite E, map_app; reflexivity).
    assert (Le : forall ch w, In (ch, w) (kv :: rest) ->
                 w <= v /\ (w = v -> ch <> m -> In ch (map fst post))).
    { intros ch w I. rewrite E in I.
      apply in_app_or in I as [I|[I|I]].
      - rewrite Forall_forall in P. apply P in I. simpl in I.
        split; [lia|intros; lia].
      - injection I as <- <-. split; [lia|congruence].
      - split.
        + rewrite Forall_forall in Q. apply Q in I. exact I.
        + intros _ _. apply (in_map fst) in I. exact I. }
    unfold majority_chapter, chunk_count. split; [exact Sm|]. split.
    + intros ch. rewrite <- Vm.
      destruct (in_dec string_dec ch (map chapter_of chunks)) as [I|N].
      * apply K, in_map_iff in I as ([ch' w] & <- & I). simpl.
        destruct (V _ _ I) as [<- _]. now apply (Le ch' w).
      * apply (count_occ_not_In string_dec) in N. lia.
    + intros ch Nm Eq. rewrite <- Vm in Eq.
      assert (I : In ch (map chapter_of chunks)).
      { apply (count_occ_In string_dec). rewrite Eq.
        apply (count_occ_In string_dec) in Sm. lia. }
      apply K, in_map_iff in I as ([ch' w] & <- & I). simpl in *.
      destruct (V _ _ I) as [Vw _]. rewrite <- Vw in Eq.
      destruct (Le ch' w I) as [_ Ip]. specialize (Ip Eq Nm).
      apply (O (map fst pre) m (map fst post) ch'); [exact KE|exact Ip].
Qed.

Lemma boost_boosted_for (m : string) (c : Chunk) :
  boost (Some m) c = boosted_for m c.
Proof.
  unfold boost, boosted_for, boost_factor.
  now destruct (String.eqb (chapter_of c) m).
Qed.

(** C4. For every non-empty list of retrieved chunks, reranking multiplies
    the similarity score by 1.1 for every chunk whose chapter is the
    majority chapter (highest chunk count, ties broken by the chapter met
    first in retrieval order), leaves the score of every other chunk
    unchanged, and returns at most as many chunks as the rerank width. *)
Theorem rerank_boosts_majority_chapter (s : Settings) (chunks : list Chunk) :
  chunks <> [] ->
  exists m,
    majority_chapter chunks m
    /\ (exists ranked,
          Permutation ranked (map (boosted_for m) chunks)
          /\ rerank_by_section_proximity s chunks
             = firstn (top_k_rerank s) ranked)
    /\ (forall r, In r (rerank_by_section_proximity s chunks) ->
         exists c, In c chunks /\ r = boosted_for m c)
    /\ List.length (rerank_by_section_proximity s chunks) <= top_k_rerank s.
Proof.
  intros NE.
  destruct (most_common_is_majority chunks NE) as (m & M & Maj).
  exists m. split; [exact Maj|].
  assert (R : rerank_by_section_proximity s chunks
              = firstn (top_k_rerank s)
                  (sorted_by higher_first (map (boosted_for m) chunks))).
  { unfold rerank_by_section_proximity.
    destruct chunks as [|c cs]; [congruence|]. rewrite M.
    f_equal. f_equal. apply map_ext, boost_boosted_for. }
  rewrite R. split; [|split].
  - eexists. split; [apply sorted_by_perm|reflexivity].
  - intros r I.
    assert (I' : In r (sorted_by higher_first (map (boosted_for m) chunks)))
      by (rewrite <- (firstn_skipn (top_k_rerank s)); apply in_or_app; auto).
    clear I; rename I' into I.
    apply (Permutation_in _ (sorted_by_perm higher_first _)) in I.
    apply in_map_iff in I as (c & <- & I). now exists c.
  - apply firstn_le_length.
Qed.

Lemma rerank_boosts_majority_chapter_witness :
  let chunk i sc ch :=
    mkChunk i sc (mkPayload None (Some ch) None None None) None in
  let chunks := [chunk "a" 0.9%float "A"; chunk "b" 0.85%float "B";
                 chunk "c" 0.8%float "B"; chunk "d" 0.95%float "A"]%list in
  map id (rerank_by_section_proximity (mkSettings 10 3 0.7 0.6) chunks)
  = ["d"; "a"; "b"]%list
  /\ exists m,
      majority_chapter chunks m
      /\ (exists ranked,
            Permutation ranked (map (boosted_for m) chunks)
            /\ rerank_by_section_proximity (mkSettings 10 3 0.7 0.6) chunks
               = firstn 3 ranked)
      /\ (forall r,
           In r (rerank_by_section_proximity (mkSettings 10 3 0.7 0.6) chunks)
           -> exists c, In c chunks /\ r = boosted_for m c)
      /\ List.length
           (rerank_by_section_proximity (mkSettings 10 3 0.7 0.6) chunks) <= 3.
Proof.
  split; [vm_compute; reflexivity|].
  apply (rerank_boosts_majority_chapter (mkSettings 10 3 0.7 0.6)).
  discriminate.
Defined.

End Rerank.

(** ** Document order *)

Section DocumentOrder.
Import PyStr Vocab Retrieval.

(** C5 fails on the code. The key of a chunk without a parseable
    identifier is the constant (999, 999, 999), which is not above every
    parsed triple: a chunk of chapter 1000 is sorted after a chunk whose
    identifier does not parse. *)
Theorem document_order_misplaces_unparseable :
  let chunk i pid :=
    mkChunk i 0.9%float
      (mkPayload (Some "text") (Some "Chapter") (Some "Section") (Some 1%Z)
                 (Some pid)) None in
  Validation.extract_passage_id_components "ch1000-sec1-p1"
  = Some (1000, 1, 1)%Z
  /\ Validation.extract_passage_id_components "appendix-a" = None
  /\ map id (sort_by_document_order
               [chunk "parsed" "ch1000-sec1-p1"; chunk "unparsed" "appendix-a"])
     = ["unparsed"; "parsed"]%list.
Proof. repeat split; vm_compute; reflexivity. Qed.

(** The sort keeps the chunks. *)
Lemma sort_by_document_order_perm (chunks : list Chunk) :
  Permutation (sort_by_document_order chunks) chunks.
Proof. apply sorted_by_perm. Qed.

Lemma tuple_ltb_asym (a b : Z * Z * Z) :
  tuple_ltb a b = true -> tuple_ltb b a = false.
Proof.
  destruct a as [[a1 a2] a3], b as [[b1 b2] b3]. unfold tuple_ltb.
  destruct (Z.ltb_spec a1 b1), (Z.ltb_spec b1 a1), (Z.eqb_spec a1 b1),
    (Z.eqb_spec b1 a1), (Z.ltb_spec a2 b2), (Z.ltb_spec b2 a2),
    (Z.eqb_spec a2 b2), (Z.eqb_spec b2 a2), (Z.ltb_spec a3 b3),
    (Z.ltb_spec b3 a3); simpl; intros; try reflexivity; try discriminate; lia.
Qed.

Lemma insert_by_key_sorted (x : Chunk) (l : list Chunk) :
  Sorted key_le l -> Sorted key_le (insert_by key_first x l).
Proof.
  induction 1 as [|y l S IH H]; simpl.
  - repeat constructor.
  - destruct (key_first y x) eqn:F.
    + constructor; [exact IH|].
      destruct l as [|z l]; simpl.
      * constructor. now apply tuple_ltb_asym.
      * destruct (key_first z x); constructor.
        -- now inversion H.
        -- now apply tuple_ltb_asym.
    + constructor; [now constructor|]. constructor. exact F.
Qed.

(** The part of C5 that holds: the result is in the order of the keys. *)
Lemma sort_by_document_order_sorted (chunks : list Chunk) :
  Sorted key_le (sort_by_document_order chunks).
Proof.
  induction chunks as [|c cs IH]; simpl; [constructor|].
  now apply insert_by_key_sorted.
Qed.

End DocumentOrder.

(** ** White space around a refusal phrase *)

Section Strip.
Import PyStr Vocab.

Lemma is_space_lower_char (c : ascii) : is_space (lower_char c) = is_space c.
Proof. destruct c as [[] [] [] [] [] [] [] []]; reflexivity. Qed.

Lemma lower_lstrip (s : string) : lower (lstrip s) = lstrip (lower s).
Proof.
  induction s as [|c s IH]; simpl; [reflexivity|].
  rewrite is_space_lower_char. now destruct (is_space c).
Qed.

Lemma lower_rstrip (s : string) : lower (rstrip s) = rstrip (lower s).
Proof.
  induction s as [|c s IH]; simpl; [reflexivity|].
  rewrite <- IH, is_space_lower_char.
  destruct (rstrip s); simpl; [now destruct (is_space c)|reflexivity].
Qed.

Lemma lower_strip (s : string) : lower (strip s) = strip (lower s).
Proof. unfold strip. now rewrite lower_rstrip, lower_lstrip. Qed.

Lemma prefix_cons (a : ascii) (p : string) (c : ascii) (t : string) :
  prefix (String a p) (String c t) = Ascii.eqb a c && prefix p t.
Proof.
  simpl. destruct (ascii_dec a c) as [->|N].
  - now rewrite Ascii.eqb_refl.
  - apply Ascii.eqb_neq in N. now rewrite N.
Qed.

Lemma contains_lstrip (p t : string) :
  starts_tight p = true -> contains p (lstrip t) = contains p t.
Proof.
  intros T. induction t as [|c t IH]; [reflexivity|].
  cbn [lstrip]. destruct (is_space c) eqn:S; [|reflexivity].
  rewrite IH. cbn [contains].
  destruct p as [|a p]; [discriminate|].
  rewrite prefix_cons.
  destruct (Ascii.eqb_spec a c) as [->|]; [|reflexivity].
  simpl in T. rewrite S in T. discriminate.
Qed.

Lemma rstrip_empty (t : string) :
  rstrip t = "" -> all_chars is_space t = true.
Proof.
  induction t as [|c t IH]; [reflexivity|]. simpl.
  destruct (rstrip t); [|discriminate].
  destruct (is_space c); [auto|discriminate].
Qed.

(** A phrase that ends on a letter is no prefix of white space. *)
Lemma prefix_of_spaces (p t : string) :
  truthy p = true -> ends_tight p = true -> all_chars is_space t = true ->
  prefix p t = false.
Proof.
  revert t; induction p as [|a p IH]; intros t N E S; [discriminate|].
  destruct t as [|c t]; [reflexivity|].
  rewrite prefix_cons. simpl in S. apply andb_true_iff in S as [Sc St].
  destruct (Ascii.eqb_spec a c) as [->|]; [|reflexivity]. simpl.
  destruct p as [|b p].
  - simpl in E. rewrite Sc in E. discriminate.
  - apply IH; auto.
Qed.

Lemma ends_tight_tail (a : ascii) (p : string) :
  ends_tight (String a p) = true -> ends_tight p = true.
Proof. destruct p; auto. Qed.

Lemma prefix_rstrip (p t : string) :
  ends_tight p = true -> prefix p (rstrip t) = prefix p t.
Proof.
  revert p; induction t as [|c t IH]; intros p E; [reflexivity|].
  destruct p as [|a p]; [now destruct (rstrip (String c t))|].
  pose proof (ends_tight_tail _ _ E) as E'.
  rewrite prefix_cons. cbn [rstrip].
  destruct (rstrip t) as [|d r] eqn:R.
  - destruct (is_space c) eqn:S.
    + simpl. symmetry.
      destruct (Ascii.eqb_spec a c) as [->|]; [|reflexivity]. simpl.
      destruct p as [|b p].
      * simpl in E. rewrite S in E. discriminate.
      * apply prefix_of_spaces; auto. now apply rstrip_empty.
    + rewrite prefix_cons, <- (IH p E'). reflexivity.
  - rewrite prefix_cons, <- (IH p E'). reflexivity.
Qed.

Lemma contains_rstrip (p t : string) :
  ends_tight p = true -> contains p (rstrip t) = contains p t.
Proof.
  intros E. induction t as [|c t IH]; [reflexivity|].
  cbn [contains]. rewrite <- IH, <- (prefix_rstrip p (String c t) E).
  cbn [rstrip]. destruct (rstrip t) as [|d r].
  - destruct (is_space c); cbn [contains]; [|reflexivity].
    now destruct (prefix p "").
  - reflexivity.
Qed.

(** Stripping the text does not change whether a phrase that starts and
    ends on a letter occurs in it. *)
Lemma contains_strip (p t : string) :
  starts_tight p = true -> ends_tight p = true ->
  contains p (strip t) = contains p t.
Proof.
  intros S E. unfold strip. now rewrite contains_rstrip, contains_lstrip.
Qed.

(** The refusal test on the stripped text is the test on the text. *)
Lemma matches_refusal_strip (content : string) :
  AnswerGeneration.matches_refusal (strip content)
  = AnswerGeneration.matches_refusal content.
Proof.
  unfold AnswerGeneration.matches_refusal, AnswerGeneration.refusal_patterns.
  cbn [existsb]. rewrite lower_strip.
  now rewrite !contains_strip by reflexivity.
Qed.

End Strip.

(** ** The chat route *)

Section ChatRoute.
Import PyStr Vocab Env Models AnswerGeneration Chat.

(** A request that is accepted passes both validations of [prepare]. *)
Lemma accepted_validations (request : ChatRequest) :
  accepted request = true ->
  exists m1 m2,
    Validation.validate_query_text
      (Validation.sanitize_text (query request)) 1 2000 = (true, m1)
    /\ Validation.validate_context_text
         (context request) (mode request) 1 10000 = (true, m2).
Proof.
  unfold accepted. intros H. apply andb_true_iff in H as [H1 H2].
  destruct (Validation.validate_query_text _ 1 2000) as [b1 m1].
  destruct (Validation.validate_context_text _ _ 1 10000) as [b2 m2].
  simpl in *. subst. now exists m1, m2.
Qed.

(** Without an embedding there are no chunks and no sources. *)
Lemma retrieve_without_embedding (s : Settings) (P : Retrieval.Providers)
    (q msg : string) :
  Retrieval.generate_embedding P q = Raises msg ->
  Retrieval.retrieve_and_rerank s P q = ([], []).
Proof.
  intros H. unfold Retrieval.retrieve_and_rerank, Retrieval.retrieve_chunks.
  now rewrite H.
Qed.

(** C2. If the query-embedding provider raises, retrieve_and_rerank returns
    the pair of an empty chunk list and an empty source list, and the chat
    call returns (it does not raise) a refused answer whose refusal reason is
    exactly: No relevant content found in book. *)
Theorem embedding_failure_is_refused (W : World) (request : ChatRequest)
    (msg : string) :
  mode request = BOOK_WIDE ->
  accepted request = true ->
  Retrieval.generate_embedding (retrieval W)
    (Validation.sanitize_text (query request)) = Raises msg ->
  Retrieval.retrieve_and_rerank (settings W) (retrieval W)
    (Validation.sanitize_text (query request)) = ([], [])
  /\ chat W request
     = Responds (mkChatResponse REFUSAL_MESSAGE [] true
                   (Some "No relevant content found in book")
                   (Some 0.0%float) BOOK_WIDE).
Proof.
  intros M A E.
  pose proof (retrieve_without_embedding (settings W) _ _ _ E) as R.
  split; [exact R|].
  destruct (accepted_validations request A) as (m1 & m2 & V1 & V2).
  unfold chat, prepare. rewrite V1. cbn [negb]. rewrite V2. cbn [negb].
  rewrite M, R. reflexivity.
Qed.

(** C3. If the text of the generation provider matches a refusal phrase
    (case-insensitive substring match), the final answer is the fixed
    refusal message and not the text of the provider, its confidence is 0.0
    and its sources are emptied, whatever was retrieved. *)
Theorem provider_refusal_is_standardized (W : World) (request : ChatRequest)
    (query context : string) (sources : list Source)
    (content finish_reason : string) :
  prepare W request = Generate query context sources ->
  complete W (build_prompt query context (mode request)
                (user_context_of request))
  = Returns (Some content, finish_reason) ->
  matches_refusal content = true ->
  chat W request
  = Responds (mkChatResponse REFUSAL_MESSAGE [] true
                (Some "Insufficient context to answer question")
                (Some 0.0%float) (mode request)).
Proof.
  intros P C M. unfold chat. rewrite P.
  unfold answer_with, generate_answer. rewrite C.
  now rewrite matches_refusal_strip, M.
Qed.

(** What [prepare] returns by itself is a refusal without sources. *)
Lemma prepare_stop_refuses (W : World) (request : ChatRequest)
    (r : ChatResponse) :
  prepare W request = Stop (Responds r) ->
  refused r = true /\ sources r = [] /\ refusal_reason r <> None.
Proof.
  unfold prepare.
  destruct (Validation.validate_query_text _ 1 2000) as [[] m1];
    cbn [negb]; [|discriminate].
  destruct (Validation.validate_context_text _ _ 1 10000) as [[] m2];
    cbn [negb]; [|discriminate].
  destruct (mode request).
  - destruct (Retrieval.retrieve_and_rerank _ _ _) as [[|c cs] srcs];
      [|discriminate].
    intros [= <-]. simpl. repeat split; congruence.
  - destruct (new_Source _ _ _ _ _); [discriminate|].
    intros [= <-]. simpl. repeat split; congruence.
Qed.

(** [generate_answer] gives a reason exactly when it refuses. *)
Lemma generate_answer_reason (complete : Completion) (query context : string)
    (mode : QueryMode) (user_context : option string) :
  let '(_, _, refused, reason) :=
    generate_answer complete query context mode user_context in
  (refused = true /\ reason <> None) \/ (refused = false /\ reason = None).
Proof.
  unfold generate_answer, generation_failed.
  destruct (complete _) as [[[content|] finish_reason]|msg];
    try (left; split; congruence).
  destruct (matches_refusal (strip content));
    [left; split; congruence|right; split; reflexivity].
Qed.

(** The part of the refusal invariant that every response of the route
    satisfies: it is refused exactly when it has no sources and a reason,
    and a response without a reason is not refused. *)
Lemma chat_refusal_shape (W : World) (request : ChatRequest)
    (r : ChatResponse) :
  chat W request = Responds r ->
  (refused r = true <-> sources r = [] /\ refusal_reason r <> None)
  /\ (refused r = false <-> refusal_reason r = None).
Proof.
  unfold chat. destruct (prepare W request) as [result|q c srcs] eqn:P.
  - intros ->. destruct (prepare_stop_refuses _ _ _ P) as (R & S & N).
    rewrite R. repeat split; auto; try congruence.
  - intros [= <-]. unfold answer_with.
    pose proof (generate_answer_reason (complete W) q c (mode request)
                  (user_context_of request)) as G.
    destruct (generate_answer _ _ _ _ _) as [[[a conf] rf] rr].
    simpl. destruct G as [[-> N]|[-> ->]]; repeat split; auto; try congruence.
    intros [_ H]. congruence.
Qed.

End ChatRoute.

Section ChatExamples.
Import PyStr Vocab Examples Env Models AnswerGeneration Chat.

Lemma embedding_failure_is_refused_witness :
  let W := world (Raises "connection refused")
                 (Returns (Some "unused", "stop")) in
  Retrieval.retrieve_and_rerank (settings W) (retrieval W)
    (Validation.sanitize_text (query book_question)) = ([], [])
  /\ chat W book_question
     = Responds (mkChatResponse REFUSAL_MESSAGE [] true
                   (Some "No relevant content found in book")
                   (Some 0.0%float) BOOK_WIDE).
Proof.
  apply (embedding_failure_is_refused
           (world (Raises "connection refused")
                  (Returns (Some "unused", "stop")))
           book_question "connection refused"); reflexivity.
Defined.

Lemma provider_refusal_is_standardized_witness :
  let content :=
    "I cannot answer this question based on the provided book content." in
  let W := world (Returns []) (Returns (Some content, "stop")) in
  matches_refusal content = true
  /\ (exists query context src,
        prepare W book_question = Generate query context [src])
  /\ chat W book_question
     = Responds (mkChatResponse REFUSAL_MESSAGE [] true
                   (Some "Insufficient context to answer question")
                   (Some 0.0%float) BOOK_WIDE).
Proof.
  split; [vm_compute; reflexivity|]. split.
  - eexists _, _, _. vm_compute. reflexivity.
  - eapply (provider_refusal_is_standardized
              (world (Returns [])
                 (Returns (Some "I cannot answer this question based on the provided book content.", "stop")))
              book_question); vm_compute; reflexivity.
Defined.

End ChatExamples.

Section ChatInvariant.
Import PyStr Vocab Examples Env Models AnswerGeneration Chat.

(** C1 fails on the code. The route builds a [ChatResponse], which has no
    validator, and not a [Response]: when the provider returns white space
    the response is not refused and its answer is empty, and when no source
    can be built from the retrieved points the response is not refused and
    has no sources. *)
Theorem chat_answers_without_text_or_sources :
  chat (world (Returns []) (Returns (Some "   ", "stop"))) book_question
  = Responds
      (mkChatResponse ""
         [mkSource "ch3-sec2-p45" "Chapter 3: RAG Systems"
                   "3.2 Retrieval Strategies" (Some 45%Z)
                   "The optimal chunk size is 500-1000 tokens."]
         false None (Some (0.5 + 0.1)%float) BOOK_WIDE)
  /\ chat (world_of [point_without_text] (Returns [])
             (Returns (Some "Chunks of 500-1000 tokens.", "stop")))
          book_question
     = Responds
         (mkChatResponse "Chunks of 500-1000 tokens." [] false None
            (Some (0.5 + 0.1)%float) BOOK_WIDE).
Proof. split; vm_compute; reflexivity. Qed.

End ChatInvariant.

(** * Further properties *)

(** ** Sanitizing *)

Section Sanitize.
Import PyStr Vocab Props Validation.

Lemma all_chars_lstrip (f : ascii -> bool) (s : string) :
  all_chars f s = true -> all_chars f (lstrip s) = true.
Proof.
  induction s as [|c s IH]; simpl; [auto|].
  intros H. apply andb_true_iff in H as [H1 H2].
  destruct (is_space c); [auto|]. simpl. now rewrite H1, H2.
Qed.

Lemma all_chars_rstrip (f : ascii -> bool) (s : string) :
  all_chars f s = true -> all_chars f (rstrip s) = true.
Proof.
  induction s as [|c s IH]; simpl; [auto|].
  intros H. apply andb_true_iff in H as [H1 H2]. specialize (IH H2).
  revert IH. destruct (rstrip s); intros IH.
  - destruct (is_space c); simpl; [reflexivity|now rewrite H1].
  - cbn [all_chars] in *. now rewrite H1, IH.
Qed.

Lemma remove_control_plain (s : string) :
  all_chars (fun c => negb (is_control c)) (remove_control s) = true.
Proof.
  induction s as [|c s IH]; simpl; [reflexivity|].
  destruct (is_control c) eqn:E; simpl; [exact IH|now rewrite E, IH].
Qed.

Lemma collapse_plain (in_run : bool) (s : string) :
  all_chars (fun c => negb (is_control c)) s = true ->
  all_chars plain_char (collapse_spaces in_run s) = true.
Proof.
  revert in_run; induction s as [|c s IH]; intros in_run H; simpl;
    [reflexivity|].
  simpl in H. apply andb_true_iff in H as [H1 H2].
  destruct (is_space c) eqn:E.
  - destruct in_run; simpl; auto.
  - simpl. unfold plain_char at 1. rewrite H1, E. simpl. auto.
Qed.

Lemma collapse_single_spaced (in_run : bool) (s : string) :
  single_spaced (collapse_spaces in_run s) = true
  /\ (in_run = true -> starts_with_space (collapse_spaces in_run s) = false).
Proof.
  revert in_run; induction s as [|c s IH]; intros in_run; simpl;
    [split; auto|].
  destruct (is_space c) eqn:E.
  - destruct (IH true) as [S N]. destruct in_run.
    + split; auto.
    + split; [|discriminate].
      specialize (N eq_refl). cbn [single_spaced].
      destruct (collapse_spaces true s) as [|b r]; [reflexivity|].
      simpl in N. rewrite N, andb_false_r. exact S.
  - destruct (IH false) as [S _]. split; [|simpl; auto].
    cbn [single_spaced].
    destruct (collapse_spaces false s) as [|b r]; [reflexivity|].
    rewrite E. exact S.
Qed.

Lemma single_spaced_tail (a : ascii) (s : string) :
  single_spaced (String a s) = true -> single_spaced s = true.
Proof.
  cbn [single_spaced]. destruct s; [reflexivity|].
  intros H. apply andb_true_iff in H. tauto.
Qed.

Lemma single_spaced_lstrip (s : string) :
  single_spaced s = true -> single_spaced (lstrip s) = true.
Proof.
  induction s as [|c s IH]; [auto|]. intros H. cbn [lstrip].
  destruct (is_space c); [|exact H].
  apply IH. now apply single_spaced_tail in H.
Qed.

Lemma rstrip_head (c : ascii) (s : string) (d : ascii) (r : string) :
  rstrip (String c s) = String d r -> d = c.
Proof.
  cbn [rstrip]. destruct (rstrip s); [destruct (is_space c)|];
    congruence.
Qed.

Lemma single_spaced_rstrip (s : string) :
  single_spaced s = true -> single_spaced (rstrip s) = true.
Proof.
  induction s as [|c s IH]; [auto|]. intros H.
  pose proof (single_spaced_tail _ _ H) as T. specialize (IH T).
  cbn [rstrip]. destruct (rstrip s) as [|b r] eqn:R.
  - now destruct (is_space c).
  - destruct s as [|b' s']; [discriminate R|].
    apply rstrip_head in R as ->.
    cbn [single_spaced] in H |- *.
    apply andb_true_iff in H as [H1 _]. now rewrite H1.
Qed.

Lemma lstrip_no_space (s : string) :
  starts_with_space s = false -> lstrip s = s.
Proof. destruct s as [|c s]; simpl; [auto|]. now intros ->. Qed.

Lemma lstrip_starts (s : string) : starts_with_space (lstrip s) = false.
Proof.
  induction s as [|c s IH]; simpl; [reflexivity|].
  destruct (is_space c) eqn:E; [exact IH|exact E].
Qed.

Lemma rstrip_starts (s : string) :
  starts_with_space s = false -> starts_with_space (rstrip s) = false.
Proof.
  destruct s as [|c s]; [auto|]. intros H.
  destruct (rstrip (String c s)) as [|d r] eqn:R; [reflexivity|].
  apply rstrip_head in R as ->. exact H.
Qed.

Lemma rstrip_cons (c : ascii) (s : string) :
  rstrip (String c s)
  = match rstrip s with
    | EmptyString => if is_space c then EmptyString else String c EmptyString
    | String _ _ as r => String c r
    end.
Proof. reflexivity. Qed.

Lemma rstrip_idem (s : string) : rstrip (rstrip s) = rstrip s.
Proof.
  induction s as [|c s IH]; [reflexivity|]. rewrite rstrip_cons.
  destruct (rstrip s) as [|d r] eqn:R.
  - destruct (is_space c) eqn:E; [reflexivity|]. simpl. now rewrite E.
  - now rewrite rstrip_cons, IH.
Qed.

(** Stripping twice is stripping once. *)
Lemma strip_idem (s : string) : strip (strip s) = strip s.
Proof.
  unfold strip.
  rewrite (lstrip_no_space (rstrip (lstrip s)))
    by apply rstrip_starts, lstrip_starts.
  apply rstrip_idem.
Qed.

End Sanitize.

Section SanitizeText.
Import PyStr Vocab Props Validation.

Lemma plain_not_control (s : string) :
  all_chars plain_char s = true -> remove_control s = s.
Proof.
  induction s as [|c s IH]; simpl; [reflexivity|].
  intros H. apply andb_true_iff in H as [H1 H2].
  unfold plain_char in H1. apply andb_true_iff in H1 as [H1 _].
  apply negb_true_iff in H1. rewrite H1. now rewrite IH.
Qed.

Lemma plain_space (c : ascii) :
  plain_char c = true -> is_space c = true -> c = " "%char.
Proof.
  unfold plain_char. intros H S. rewrite S in H. simpl in H.
  apply andb_true_iff in H as [_ H]. now apply Ascii.eqb_eq.
Qed.

Lemma collapse_fixed (in_run : bool) (s : string) :
  all_chars plain_char s = true -> single_spaced s = true ->
  (in_run = true -> starts_with_space s = false) ->
  collapse_spaces in_run s = s.
Proof.
  revert in_run; induction s as [|c s IH]; intros in_run P S N;
    [reflexivity|].
  simpl in P. apply andb_true_iff in P as [Pc P].
  pose proof (single_spaced_tail _ _ S) as T.
  cbn [collapse_spaces]. destruct (is_space c) eqn:E.
  - destruct in_run; [specialize (N eq_refl); simpl in N; congruence|].
    rewrite (plain_space c Pc E). f_equal. apply IH; auto.
    intros _. destruct s as [|b s]; [reflexivity|].
    cbn [single_spaced] in S. rewrite E in S. simpl in S |- *.
    apply andb_true_iff in S as [S _]. now apply negb_true_iff in S.
  - f_equal. apply IH; auto. discriminate.
Qed.

(** A text in sanitized form is left as it is. *)
Lemma sanitized_fixed (s : string) :
  sanitized s = true -> sanitize_text s = s.
Proof.
  unfold sanitized, sanitize_text. intros H.
  apply andb_true_iff in H as [H E]. apply andb_true_iff in H as [P S].
  rewrite plain_not_control by assumption.
  rewrite collapse_fixed by (auto; discriminate).
  now apply String.eqb_eq.
Qed.

Lemma sanitize_text_sanitized (text : string) :
  sanitized (sanitize_text text) = true.
Proof.
  unfold sanitized, sanitize_text.
  rewrite strip_idem, String.eqb_refl, andb_true_r.
  apply andb_true_iff. split; unfold strip.
  - apply all_chars_rstrip, all_chars_lstrip, collapse_plain,
      remove_control_plain.
  - apply single_spaced_rstrip, single_spaced_lstrip,
      (collapse_single_spaced false).
Qed.

(** The result of sanitize_text holds no control character and no white
    space but single spaces between words, none at either end; sanitizing it
    again changes nothing. *)
Theorem sanitize_text_normal_form (text : string) :
  sanitized (sanitize_text text) = true
  /\ sanitize_text (sanitize_text text) = sanitize_text text.
Proof.
  split; [apply sanitize_text_sanitized|].
  apply sanitized_fixed, sanitize_text_sanitized.
Qed.

End SanitizeText.

(** ** The chat route: validation, modes and provider failures *)

Section ChatModes.
Import PyStr Vocab Props Env Models AnswerGeneration Chat.

Lemma query_validation (request : ChatRequest) :
  query_accepted request = true ->
  exists m, Validation.validate_query_text
              (Validation.sanitize_text (query request)) 1 2000 = (true, m).
Proof.
  unfold query_accepted.
  destruct (Validation.validate_query_text _ 1 2000) as [b m]. simpl.
  intros ->. now exists m.
Qed.

Lemma mismatch_validation (request : ChatRequest) :
  mode_mismatch request = true ->
  Validation.validate_context_text (context request) (mode request) 1 10000
  = (false, mismatch_detail (mode request)).
Proof.
  unfold mode_mismatch, Validation.validate_context_text.
  destruct (mode request); intros H.
  - apply negb_true_iff in H. now rewrite H.
  - now rewrite H.
Qed.

(** A selected-text request without a context, and a book-wide request with
    one, are answered with the 422 of the mode, whatever the providers
    would do: none of them is reached. *)
Theorem mode_mismatch_is_rejected (request : ChatRequest) :
  query_accepted request = true -> mode_mismatch request = true ->
  forall W, chat W request = HTTP_422 (mismatch_detail (mode request)).
Proof.
  intros Q M W. destruct (query_validation request Q) as [m V].
  unfold chat, prepare. rewrite V. cbn [negb].
  now rewrite (mismatch_validation request M).
Qed.

Lemma mode_mismatch_is_rejected_witness :
  chat (Examples.world (Returns []) (Returns (Some "unused", "stop")))
       (mkChatRequest "What is RAG?" SELECTED_TEXT None)
  = HTTP_422 "Context is required for selected-text mode".
Proof.
  apply (mode_mismatch_is_rejected
           (mkChatRequest "What is RAG?" SELECTED_TEXT None));
    reflexivity.
Defined.

(** The route raises its 422 exactly for the requests that fail its two
    validations, with a detail that no provider has a part in; every other
    request gets a response. *)
Theorem chat_rejects_exactly_the_invalid (request : ChatRequest) :
  (accepted request = false ->
   exists detail, forall W, chat W request = HTTP_422 detail)
  /\ (accepted request = true ->
      forall W, exists r, chat W request = Responds r).
Proof.
  unfold accepted, chat, prepare.
  destruct (Validation.validate_query_text _ 1 2000) as [[] m1];
  destruct (Validation.validate_context_text _ _ 1 10000) as [[] m2];
    cbn [fst andb negb]; split; try discriminate.
  - intros _ W. destruct (mode request).
    + destruct (Retrieval.retrieve_and_rerank _ _ _) as [[|c cs] srcs];
        eexists; reflexivity.
    + destruct (new_Source _ _ _ _ _); eexists; reflexivity.
  - intros _. now exists m2.
  - intros _. now exists m1.
  - intros _. now exists m1.
Qed.

(** In selected-text mode the route reads neither the settings nor the
    retrieval providers: two worlds with the same generation provider give
    the same result. *)
Theorem selected_text_ignores_the_index (W W' : World)
    (request : ChatRequest) :
  mode request = SELECTED_TEXT ->
  complete W = complete W' -> validation_error W = validation_error W' ->
  chat W request = chat W' request.
Proof.
  intros M C V. unfold chat, prepare.
  destruct (Validation.validate_query_text _ 1 2000) as [[] m1];
    cbn [negb]; [|reflexivity].
  destruct (Validation.validate_context_text _ _ 1 10000) as [[] m2];
    cbn [negb]; [|reflexivity].
  rewrite M, V.
  destruct (new_Source _ _ _ _ _); [|reflexivity].
  unfold answer_with. now rewrite C.
Qed.

Lemma new_Source_long_snippet (pid ch sec : string) (pg : option Z)
    (snippet : string) :
  200 < length snippet -> new_Source pid ch sec pg snippet = None.
Proof.
  intros L. unfold new_Source.
  apply Nat.leb_gt in L. now rewrite L, andb_false_r.
Qed.

(** A selected text of more than 200 characters never reaches the
    generation provider: its citation snippet, 200 characters and the
    ellipsis, is longer than a Source allows, and the route answers with its
    internal-error refusal, whose reason is the text of the validation
    error for that snippet. *)
Theorem long_selection_is_an_internal_error (W : World)
    (request : ChatRequest) :
  mode request = SELECTED_TEXT -> accepted request = true ->
  200 < length (get_or "" (context request)) ->
  let snippet := take 200 (get_or "" (context request)) ++ "..." in
  Models.new_Source "selected-text" "User-Selected Text" "User Selection"
                    None snippet = None
  /\ chat W request
     = Responds (mkChatResponse
                   "An error occurred while processing your question. Please try again."
                   [] true
                   (Some ("Internal error: " ++ validation_error W snippet))
                   (Some 0.0%float) SELECTED_TEXT).
Proof.
  intros M A L.
  unfold accepted in A. apply andb_true_iff in A as [A1 A2].
  unfold chat, prepare.
  destruct (Validation.validate_query_text _ 1 2000) as [b1 m1].
  destruct (Validation.validate_context_text _ _ 1 10000) as [b2 m2].
  simpl in A1, A2. subst b1 b2. cbn [negb]. rewrite M.
  apply Nat.ltb_lt in L as L'. rewrite L'.
  assert (N : new_Source "selected-text" "User-Selected Text"
                "User Selection" None
                (take 200 (get_or "" (context request)) ++ "...") = None).
  { apply new_Source_long_snippet.
    rewrite length_app, length_take. change (length "...") with 3. lia. }
  split; [exact N|]. rewrite N. reflexivity.
Qed.

End ChatModes.

Section ChatFailures.
Import PyStr Vocab Props Examples Env Models AnswerGeneration Chat.

Lemma selected_text_ignores_the_index_witness :
  let request :=
    mkChatRequest "What does it say?" SELECTED_TEXT
                  (Some "RAG retrieves passages before it generates.") in
  chat (world (Returns []) (Returns (Some "It retrieves first.", "stop")))
       request
  = chat (world_of [] (Raises "index down")
                   (Returns (Some "It retrieves first.", "stop")))
         request.
Proof.
  apply (selected_text_ignores_the_index
           (world (Returns []) (Returns (Some "It retrieves first.", "stop")))
           (world_of [] (Raises "index down")
                     (Returns (Some "It retrieves first.", "stop")))
           (mkChatRequest "What does it say?" SELECTED_TEXT
              (Some "RAG retrieves passages before it generates.")));
    reflexivity.
Defined.

Lemma long_selection_is_an_internal_error_witness :
  let W := world (Returns []) (Returns (Some "unused", "stop")) in
  let request :=
    mkChatRequest "What does it say?" SELECTED_TEXT
                  (Some (replicate 201 "a")) in
  let snippet := take 200 (get_or "" (context request)) ++ "..." in
  Models.new_Source "selected-text" "User-Selected Text" "User Selection"
                    None snippet = None
  /\ chat W request
     = Responds (mkChatResponse
                   "An error occurred while processing your question. Please try again."
                   [] true
                   (Some ("Internal error: " ++ validation_error W snippet))
                   (Some 0.0%float) SELECTED_TEXT).
Proof.
  apply (long_selection_is_an_internal_error
           (world (Returns []) (Returns (Some "unused", "stop")))
           (mkChatRequest "What does it say?" SELECTED_TEXT
                          (Some (replicate 201 "a"))));
    [reflexivity|vm_compute; reflexivity|apply Nat.ltb_lt; vm_compute;
                                         reflexivity].
Defined.

(** A failure of the generation provider, an exception or a completion
    without content, never leaves the route: the response is the standard
    refusal, without sources, with confidence 0.0 and the reason Error
    followed by the text of the exception. *)
Theorem generation_failure_is_a_refusal (W : World) (request : ChatRequest)
    (query context : string) (sources : list Source) (msg : string) :
  prepare W request = Generate query context sources ->
  failure_text (complete W (build_prompt query context (mode request)
                              (user_context_of request))) = Some msg ->
  chat W request
  = Responds (mkChatResponse REFUSAL_MESSAGE [] true
                (Some ("Error: " ++ msg)) (Some 0.0%float) (mode request)).
Proof.
  intros P F. unfold chat. rewrite P. unfold answer_with, generate_answer.
  destruct (complete W _) as [[[content|] finish_reason]|m]; simpl in F;
    [discriminate| |]; injection F as <-; reflexivity.
Qed.

Lemma generation_failure_is_a_refusal_witness :
  chat (world (Returns []) (Raises "Request timed out.")) book_question
  = Responds (mkChatResponse REFUSAL_MESSAGE [] true
                (Some "Error: Request timed out.") (Some 0.0%float)
                BOOK_WIDE).
Proof.
  eapply (generation_failure_is_a_refusal
            (world (Returns []) (Raises "Request timed out."))
            book_question); vm_compute; reflexivity.
Defined.

Lemma additive_heuristic_unit (answer finish_reason : string) :
  PrimFloat.leb 0 (additive_heuristic answer finish_reason) = true
  /\ PrimFloat.leb (additive_heuristic answer finish_reason) 1 = true.
Proof.
  unfold additive_heuristic, heuristic_with, length_bonus.
  destruct (has_marker_opening answer);
  destruct (length answer <? 50)%nat;
  destruct (length answer <=? 500)%nat;
  destruct (String.eqb finish_reason "stop"); split; reflexivity.
Qed.

(** Every response of the route carries a confidence, between 0.0 and 1.0,
    so the range constraint of the response model never fails. *)
Theorem chat_confidence_in_unit_interval (W : World) (request : ChatRequest)
    (r : ChatResponse) :
  chat W request = Responds r ->
  exists c, confidence r = Some c
            /\ PrimFloat.leb 0 c = true /\ PrimFloat.leb c 1 = true.
Proof.
  unfold chat, prepare.
  assert (G : forall q c srcs,
             exists x, confidence (answer_with W request q c srcs) = Some x
                       /\ PrimFloat.leb 0 x = true
                       /\ PrimFloat.leb x 1 = true).
  { intros q c srcs. unfold answer_with, generate_answer, generation_failed.
    destruct (complete W _) as [[[content|] finish_reason]|m]; simpl;
      try (eexists; repeat split; reflexivity).
    destruct (matches_refusal (strip content)); simpl;
      [eexists; repeat split; reflexivity|].
    eexists. split; [reflexivity|].
    rewrite estimate_confidence_additive. apply additive_heuristic_unit. }
  destruct (Validation.validate_query_text _ 1 2000) as [[] m1];
    cbn [negb]; [|discriminate].
  destruct (Validation.validate_context_text _ _ 1 10000) as [[] m2];
    cbn [negb]; [|discriminate].
  destruct (mode request).
  - destruct (Retrieval.retrieve_and_rerank _ _ _) as [[|ch cs] srcs];
      intros [= <-]; [simpl; eexists; repeat split; reflexivity|apply G].
  - destruct (new_Source _ _ _ _ _); intros [= <-];
      [apply G|simpl; eexists; repeat split; reflexivity].
Qed.

Lemma chat_confidence_in_unit_interval_witness :
  exists c,
    Some (0.5 + 0.1)%float = Some c
    /\ PrimFloat.leb 0 c = true /\ PrimFloat.leb c 1 = true.
Proof.
  apply (chat_confidence_in_unit_interval
           (world (Returns []) (Returns (Some "   ", "stop")))
           book_question
           (mkChatResponse ""
              [mkSource "ch3-sec2-p45" "Chapter 3: RAG Systems"
                        "3.2 Retrieval Strategies" (Some 45%Z)
                        "The optimal chunk size is 500-1000 tokens."]
              false None (Some (0.5 + 0.1)%float) BOOK_WIDE)).
  vm_compute; reflexivity.
Defined.

Lemma chat_refusal_shape_witness :
  (true = true <-> @nil Source = [] /\ Some "No relevant content found in book" <> None)
  /\ (true = false <-> Some "No relevant content found in book" = @None string).
Proof.
  apply (chat_refusal_shape
           (world (Raises "connection refused")
                  (Returns (Some "unused", "stop")))
           book_question
           (mkChatResponse REFUSAL_MESSAGE [] true
              (Some "No relevant content found in book")
              (Some 0.0%float) BOOK_WIDE)).
  vm_compute; reflexivity.
Defined.

End ChatFailures.

(** ** Citations *)

Section Citations.
Import PyStr Vocab Props Retrieval.

Lemma length_truthy (s : string) : (1 <=? length s)%nat = truthy s.
Proof. now destruct s. Qed.

(** The snippet of a non-empty text is non-empty. *)
Lemma truncate_snippet_nonempty (text : string) :
  truthy (ChunkingUtils.truncate_snippet text 200) = truthy text.
Proof.
  unfold ChunkingUtils.truncate_snippet.
  destruct (Nat.leb_spec (length text) 200) as [L|L]; [reflexivity|].
  destruct text; [simpl in L; lia|].
  now destruct (rsplit1_head _).
Qed.

Lemma truncate_snippet_length (text : string) :
  length (ChunkingUtils.truncate_snippet text 200) <= 200.
Proof.
  unfold ChunkingUtils.truncate_snippet.
  destruct (Nat.leb_spec (length text) 200) as [L|L]; [exact L|].
  rewrite length_app. change (200 - 3) with 197.
  pose proof (length_rsplit1_head (take 197 text)) as R.
  rewrite length_take in R. change (length "...") with 3. lia.
Qed.

(** The snippet of a text meets the length constraint of a Source when the
    text is non-empty. *)
Lemma snippet_constraint (text : string) :
  (1 <=? length (ChunkingUtils.truncate_snippet text 200))%nat
  && (length (ChunkingUtils.truncate_snippet text 200) <=? 200)%nat
  = truthy text.
Proof.
  pose proof (truncate_snippet_length text) as U.
  apply Nat.leb_le in U. rewrite U, andb_true_r.
  now rewrite length_truthy, truncate_snippet_nonempty.
Qed.

(** One iteration of [chunks_to_sources] gives a citation exactly when the
    payload is citable. *)
Lemma chunk_to_source_citable (c : Chunk) :
  chunk_to_source c
  = if citable (payload c) then Some (citation_of (payload c)) else None.
Proof.
  unfold chunk_to_source, Models.new_Source, citable, citation_of.
  rewrite <- !andb_assoc, snippet_constraint, !length_truthy.
  now destruct (passage_id (payload c)).
Qed.

Lemma drop_prefix_some (p s r : string) :
  drop_prefix p s = Some r -> s = p ++ r.
Proof.
  revert s; induction p as [|a p IH]; intros s.
  - destruct s; now intros [= <-].
  - destruct s as [|b s]; [discriminate|]. cbn [drop_prefix].
    destruct (Ascii.eqb_spec a b) as [->|N]; [|discriminate].
    intros D. simpl. f_equal. now apply IH.
Qed.

Lemma span_digits_some (s d r : string) :
  span_digits s = (d, r) -> s = d ++ r /\ all_digits d = true.
Proof.
  revert d; induction s as [|c s IH]; intros d.
  - now intros [= <- <-].
  - cbn [span_digits]. destruct (is_digit c) eqn:C.
    + destruct (span_digits s) as [d' r'] eqn:S. intros [= <- <-].
      destruct (IH d' eq_refl) as [-> A]. simpl. now rewrite C, A.
    + now intros [= <- <-].
Qed.

Lemma passage_id_pattern_form (pid : string) :
  Models.passage_id_pattern pid = true -> citation_form pid.
Proof.
  unfold Models.passage_id_pattern. intros H.
  apply orb_true_iff in H as [H|H]; [left; now apply String.eqb_eq|].
  right.
  destruct (drop_prefix "ch" pid) as [r1|] eqn:D1; [|discriminate].
  destruct (span_digits r1) as [d1 r2] eqn:S1.
  destruct (drop_prefix "-sec" r2) as [r3|] eqn:D2; [|discriminate].
  destruct (span_digits r3) as [d2 r4] eqn:S2.
  destruct (drop_prefix "-p" r4) as [r5|] eqn:D3; [|discriminate].
  destruct (span_digits r5) as [d3 r6] eqn:S3.
  apply andb_true_iff in H as [H T4]. apply andb_true_iff in H as [H T3].
  apply andb_true_iff in H as [T1 T2].
  apply drop_prefix_some in D1, D2, D3.
  apply span_digits_some in S1 as [E1 A1], S2 as [E2 A2], S3 as [E3 A3].
  assert (R6 : r6 = "") by (destruct r6; [reflexivity|discriminate T4]).
  exists d1, d2, d3. rewrite A1, A2, A3, T1, T2, T3. repeat split.
  rewrite D1, E1, D2, E2, D3, E3, R6, append_nil_r. reflexivity.
Qed.

Lemma chunks_to_sources_citable (chunks : list Chunk) :
  chunks_to_sources chunks
  = map citation_of (filter citable (map payload chunks)).
Proof.
  induction chunks as [|c cs IH]; [reflexivity|].
  cbn [chunks_to_sources map filter]. rewrite chunk_to_source_citable.
  destruct (citable (payload c)); cbn [map]; now rewrite IH.
Qed.

(** [chunks_to_sources] cites the retrieved points whose payload is
    citable, all of them and in their order, and skips the others, a point
    without a passage id or without a text among them; every citation has a
    passage id of the form of a citation and a snippet of 1 to 200
    characters. *)
Theorem chunks_to_sources_cites_the_citable (chunks : list Chunk) :
  chunks_to_sources chunks
  = map citation_of (filter citable (map payload chunks))
  /\ forall src, In src (chunks_to_sources chunks) ->
       citation_form (Models.passage_id src)
       /\ 1 <= length (Models.snippet src) <= 200.
Proof.
  split; [apply chunks_to_sources_citable|].
  intros src I. rewrite chunks_to_sources_citable in I.
  apply in_map_iff in I as (p & <- & I).
  apply filter_In in I as [_ C]. unfold citable in C.
  rewrite <- !andb_assoc in C. apply andb_true_iff in C as [P C].
  apply andb_true_iff in C as [_ C]. apply andb_true_iff in C as [_ C].
  apply andb_true_iff in C as [_ T].
  cbn [citation_of Models.passage_id Models.snippet]. split.
  - destruct (passage_id p) as [pid|]; [|discriminate].
    now apply passage_id_pattern_form.
  - pose proof (snippet_constraint (get_or "" (text p))) as SC.
    rewrite T in SC. apply andb_true_iff in SC as [L U].
    apply Nat.leb_le in L, U. lia.
Qed.

Lemma chunks_to_sources_length (chunks : list Chunk) :
  List.length (chunks_to_sources chunks) <= List.length chunks.
Proof.
  induction chunks as [|c cs IH]; simpl; [lia|].
  destruct (chunk_to_source c); simpl; lia.
Qed.

Lemma indexing_pattern_is_citation_pattern (s : string) :
  Indexing.passage_id_pattern s = true -> Models.passage_id_pattern s = true.
Proof.
  unfold Indexing.passage_id_pattern, Models.passage_id_pattern.
  intros ->. apply orb_true_r.
Qed.

(** Every chunk that the Chunk model accepts is cited when it is retrieved:
    the payload that indexing stores always gives a Source, with the
    passage id, chapter, section and page of the chunk and the snippet of
    its text. *)
Theorem indexed_chunk_is_cited
    (text : string) (embedding : list float) (chapter section : string)
    (page : option Z) (passage_id source_file : string) (ch : Indexing.Chunk)
    (point_id : string) (score : float) (boosted : option float) :
  Indexing.new_Chunk text embedding chapter section page passage_id
                     source_file = Some ch ->
  chunk_to_source
    (mkChunk point_id score (Indexing.to_qdrant_payload ch) boosted)
  = Some (Models.mkSource passage_id chapter section page
            (ChunkingUtils.truncate_snippet text 200)).
Proof.
  unfold Indexing.new_Chunk.
  destruct (_ && _) eqn:V; [|discriminate]. intros [= <-].
  repeat (apply andb_true_iff in V as [V ?]).
  unfold chunk_to_source, Models.new_Source, Indexing.to_qdrant_payload.
  cbn [Retrieval.payload Retrieval.passage_id Retrieval.chapter
       Retrieval.section Retrieval.page Retrieval.text get_or
       Indexing.text Indexing.chapter Indexing.section Indexing.page
       Indexing.passage_id].
  rewrite <- !andb_assoc, snippet_constraint.
  rewrite indexing_pattern_is_citation_pattern by assumption.
  repeat match goal with H : _ = true |- _ => rewrite H; clear H end.
  destruct text as [|a t]; [discriminate|]. reflexivity.
Qed.

Lemma indexed_chunk_is_cited_witness :
  let text := replicate 100 "a" in
  chunk_to_source
    (mkChunk "7f3c" 0.9%float
       (Indexing.to_qdrant_payload
          (Indexing.mkChunk text (repeat 0%float 1536) "Chapter 3" "3.2"
                            (Some 1%Z) "ch3-sec2-p1" "book/ch3.md"))
       None)
  = Some (Models.mkSource "ch3-sec2-p1" "Chapter 3" "3.2" (Some 1%Z)
            (ChunkingUtils.truncate_snippet text 200)).
Proof.
  apply (indexed_chunk_is_cited (replicate 100 "a") (repeat 0%float 1536)
           "Chapter 3" "3.2" (Some 1%Z) "ch3-sec2-p1" "book/ch3.md").
  vm_compute; reflexivity.
Defined.

End Citations.

(** ** The retrieval pipeline *)

Section Pipeline.
Import PyStr Vocab Props Env Retrieval.

Lemma tuple_ltb_trans_le (a b c : Z * Z * Z) :
  tuple_ltb b a = false -> tuple_ltb c b = false -> tuple_ltb c a = false.
Proof.
  destruct a as [[a1 a2] a3], b as [[b1 b2] b3], c as [[c1 c2] c3].
  unfold tuple_ltb.
  destruct (Z.ltb_spec b1 a1), (Z.eqb_spec b1 a1), (Z.ltb_spec b2 a2),
    (Z.eqb_spec b2 a2), (Z.ltb_spec b3 a3); simpl; try discriminate; intros _;
  destruct (Z.ltb_spec c1 b1), (Z.eqb_spec c1 b1), (Z.ltb_spec c2 b2),
    (Z.eqb_spec c2 b2), (Z.ltb_spec c3 b3); simpl; try discriminate; intros _;
  destruct (Z.ltb_spec c1 a1), (Z.eqb_spec c1 a1), (Z.ltb_spec c2 a2),
    (Z.eqb_spec c2 a2), (Z.ltb_spec c3 a3); simpl; try reflexivity; lia.
Qed.

Lemma key_le_trans : Relations_1.Transitive key_le.
Proof.
  intros a b c H1 H2. unfold key_le in *.
  exact (tuple_ltb_trans_le _ _ _ H1 H2).
Qed.

Lemma strongly_sorted_middle {A : Type} (R : A -> A -> Prop)
    (l1 : list A) (x : A) (l2 : list A) (y : A) (l3 : list A) :
  StronglySorted R (l1 ++ x :: l2 ++ y :: l3) -> R x y.
Proof.
  induction l1 as [|a l1 IH]; simpl; intros S;
    apply StronglySorted_inv in S as [S F].
  - rewrite Forall_forall in F. apply F, in_or_app. right. now left.
  - now apply IH.
Qed.

(** [sort_by_document_order] returns the same chunks in the order of their
    keys: no chunk stands before a chunk of a smaller key. *)
Theorem document_order_sorts_by_key (chunks : list Chunk) :
  Permutation (sort_by_document_order chunks) chunks
  /\ StronglySorted key_le (sort_by_document_order chunks).
Proof.
  split; [apply sort_by_document_order_perm|].
  apply (Sorted_StronglySorted key_le_trans),
    sort_by_document_order_sorted.
Qed.

Lemma unparseable_key (c : Chunk) :
  parseable c = false -> get_sort_key c = fallback_key.
Proof.
  unfold parseable, Validation.is_valid_passage_id, get_sort_key.
  now destruct (Validation.extract_passage_id_components _).
Qed.

(** When every chunk that parses has a key below (999, 999, 999), the
    chunks that do not parse come last: whatever follows one of them in the
    result does not parse either. *)
Theorem unparseable_last_below_fallback (chunks : list Chunk)
    (before : list Chunk) (x : Chunk) (between : list Chunk) (y : Chunk)
    (after : list Chunk) :
  (forall c, In c chunks -> parseable c = true ->
             tuple_ltb (get_sort_key c) fallback_key = true) ->
  sort_by_document_order chunks = (before ++ x :: between ++ y :: after)%list ->
  parseable x = false -> parseable y = false.
Proof.
  intros B E X.
  assert (S : StronglySorted key_le (sort_by_document_order chunks))
    by apply (Sorted_StronglySorted key_le_trans),
         sort_by_document_order_sorted.
  rewrite E in S. apply strongly_sorted_middle in S. unfold key_le in S.
  rewrite (unparseable_key x X) in S.
  destruct (parseable y) eqn:Y; [|reflexivity].
  rewrite B in S; [discriminate S|  |exact Y].
  apply (Permutation_in _ (sort_by_document_order_perm chunks)).
  rewrite E. apply in_or_app. right. right. apply in_or_app. right. now left.
Qed.

Lemma unparseable_last_below_fallback_witness :
  parseable (mkChunk "c" 0.7%float
               (mkPayload None None None None (Some "intro")) None)
  = false.
Proof.
  apply (unparseable_last_below_fallback
           [mkChunk "a" 0.9%float
              (mkPayload None None None None (Some "appendix-a")) None;
            mkChunk "b" 0.8%float
              (mkPayload None None None None (Some "ch2-sec1-p1")) None;
            mkChunk "c" 0.7%float
              (mkPayload None None None None (Some "intro")) None]
           [mkChunk "b" 0.8%float
              (mkPayload None None None None (Some "ch2-sec1-p1")) None]
           (mkChunk "a" 0.9%float
              (mkPayload None None None None (Some "appendix-a")) None)
           []
           (mkChunk "c" 0.7%float
              (mkPayload None None None None (Some "intro")) None)
           []).
  - intros c [<-|[<-|[<-|[]]]]; vm_compute; congruence.
  - vm_compute; reflexivity.
  - vm_compute; reflexivity.
Defined.

End Pipeline.

Section PipelineResult.
Import PyStr Vocab Props Env Retrieval.

Lemma boost_same_result (m : option string) (c : Chunk) :
  same_result (boost m c) c.
Proof.
  unfold boost, same_result. destruct m as [m|]; [|now repeat split].
  destruct (String.eqb (chapter_of c) m); now repeat split.
Qed.

Lemma in_firstn {A : Type} (n : nat) (l : list A) (x : A) :
  In x (firstn n l) -> In x l.
Proof.
  intros I. rewrite <- (firstn_skipn n l). apply in_or_app. now left.
Qed.

Lemma rerank_results (s : Settings) (chunks : list Chunk) (r : Chunk) :
  In r (rerank_by_section_proximity s chunks) ->
  exists c, In c chunks /\ same_result r c.
Proof.
  unfold rerank_by_section_proximity.
  destruct chunks as [|c0 cs]; [intros []|]. intros I.
  apply in_firstn in I.
  apply (Permutation_in _ (sorted_by_perm higher_first _)) in I.
  apply in_map_iff in I as (c & <- & I).
  exists c. split; [exact I|apply boost_same_result].
Qed.

Lemma rerank_length (s : Settings) (chunks : list Chunk) :
  List.length (rerank_by_section_proximity s chunks)
  = Nat.min (top_k_rerank s) (List.length chunks).
Proof.
  unfold rerank_by_section_proximity.
  destruct chunks as [|c0 cs]; [simpl; lia|].
  now rewrite length_firstn, sorted_by_length, length_map.
Qed.

Lemma retrieve_and_rerank_found (s : Settings) (P : Providers)
    (query : string) (c0 : Chunk) (cs : list Chunk) :
  retrieve_chunks s P query = (c0 :: cs)%list ->
  retrieve_and_rerank s P query
  = (sort_by_document_order (rerank_by_section_proximity s (c0 :: cs)),
     chunks_to_sources
       (sort_by_document_order (rerank_by_section_proximity s (c0 :: cs)))).
Proof. unfold retrieve_and_rerank. now intros ->. Qed.

(** What [retrieve_and_rerank] returns, for a rerank width of 1 or more:
    chunks exactly when the search found some, at most the rerank width of
    them, each one a search result with its id, score and payload, in the
    order of the document keys; and at most one source per chunk. *)
Theorem retrieve_and_rerank_result (s : Settings) (P : Providers)
    (query : string) (chunks : list Chunk) (sources : list Models.Source) :
  1 <= top_k_rerank s ->
  retrieve_and_rerank s P query = (chunks, sources) ->
  (chunks = [] <-> retrieve_chunks s P query = [])
  /\ List.length chunks <= top_k_rerank s
  /\ (forall r, In r chunks ->
        exists c, In c (retrieve_chunks s P query) /\ same_result r c)
  /\ StronglySorted key_le chunks
  /\ sources = chunks_to_sources chunks
  /\ List.length sources <= List.length chunks.
Proof.
  intros K H.
  destruct (retrieve_chunks s P query) as [|c0 cs] eqn:R.
  - unfold retrieve_and_rerank in H. rewrite R in H.
    injection H as <- <-. simpl.
    repeat split; auto; try lia; try constructor; try (intros r []).
  - rewrite (retrieve_and_rerank_found _ _ _ _ _ R) in H.
    pose proof (rerank_length s (c0 :: cs)) as L.
    pose proof (rerank_results s (c0 :: cs)) as RR.
    remember (rerank_by_section_proximity s (c0 :: cs)) as ranked eqn:ER.
    clear ER.
    pose proof (sorted_by_length key_first ranked) as SL.
    change (sorted_by key_first ranked)
      with (sort_by_document_order ranked) in SL.
    pose proof (sort_by_document_order_perm ranked) as SP.
    pose proof (sort_by_document_order_sorted ranked) as SS.
    remember (sort_by_document_order ranked) as sorted eqn:ES. clear ES.
    injection H as <- <-.
    split; [|split; [|split; [|split; [|split]]]].
    + split; [|discriminate]. intros E. rewrite E in SL.
      simpl in L, SL. lia.
    + rewrite SL, L. lia.
    + intros r I. apply (Permutation_in _ SP) in I. now apply RR in I.
    + now apply (Sorted_StronglySorted key_le_trans).
    + reflexivity.
    + apply chunks_to_sources_length.
Qed.

Lemma retrieve_and_rerank_result_witness :
  let P := mkProviders (fun _ => Returns [])
                       (fun _ _ _ => [Examples.indexed_chunk]) in
  let chunks :=
    [mkChunk "7f3c" 0.9%float (payload Examples.indexed_chunk)
             (Some (0.9 * 1.1)%float)] in
  let sources := chunks_to_sources chunks in
  (chunks = [] <-> retrieve_chunks default_settings P "q" = [])
  /\ List.length chunks <= 5
  /\ (forall r, In r chunks ->
        exists c, In c (retrieve_chunks default_settings P "q")
                  /\ same_result r c)
  /\ StronglySorted key_le chunks
  /\ sources = chunks_to_sources chunks
  /\ List.length sources <= List.length chunks.
Proof.
  apply (retrieve_and_rerank_result default_settings
           (mkProviders (fun _ => Returns [])
                        (fun _ _ _ => [Examples.indexed_chunk]))
           "q");
    [vm_compute; lia|vm_compute; reflexivity].
Defined.

Lemma prefix_app_self (p b : string) : prefix p (p ++ b) = true.
Proof.
  induction p as [|a p IH]; simpl; [now destruct b|].
  destruct (ascii_dec a a); [exact IH|congruence].
Qed.

Lemma contains_prefix (p h : string) :
  prefix p h = true -> contains p h = true.
Proof. destruct h; cbn [contains]; now intros ->. Qed.

Lemma contains_app (p a b : string) : contains p (a ++ p ++ b) = true.
Proof.
  induction a as [|c a IH].
  - change ("" ++ p ++ b) with (p ++ b).
    apply contains_prefix, prefix_app_self.
  - cbn [append contains]. rewrite IH. apply orb_true_r.
Qed.

Lemma join_holds (sep x : string) (parts : list string) :
  In x parts -> exists a b, join sep parts = a ++ x ++ b.
Proof.
  induction parts as [|p ps IH]; [intros []|].
  intros [->|I].
  - destruct ps as [|q qs].
    + exists "", "". simpl. now rewrite append_nil_r.
    + exists "", (sep ++ join sep (q :: qs)). reflexivity.
  - destruct (IH I) as (a & b & E).
    destruct ps as [|q qs]; [destruct I|].
    exists (p ++ sep ++ a), b.
    change (join sep (p :: q :: qs)) with (p ++ sep ++ join sep (q :: qs)).
    now rewrite E, !append_assoc.
Qed.

(** Every chunk given to [get_context_text] is in the context with its
    passage id tag in front of its text. *)
Theorem context_holds_every_chunk (chunks : list Chunk) (c : Chunk) :
  In c chunks -> contains (context_part c) (get_context_text chunks) = true.
Proof.
  intros I. unfold get_context_text.
  destruct chunks as [|c0 cs]; [destruct I|].
  destruct (join_holds (nl ++ nl) (context_part c)
              (map context_part (c0 :: cs))) as (a & b & E);
    [now apply in_map|].
  rewrite E. apply contains_app.
Qed.

Lemma context_holds_every_chunk_witness :
  contains "[ch3-sec2-p45] The optimal chunk size is 500-1000 tokens."
           (get_context_text [Examples.point_without_text;
                              Examples.indexed_chunk])
  = true.
Proof.
  apply (context_holds_every_chunk
           [Examples.point_without_text; Examples.indexed_chunk]
           Examples.indexed_chunk).
  right. left. reflexivity.
Defined.

End PipelineResult.

(** ** Passage ids of the chunker *)

Section ChunkIds.
Import PyStr Vocab Props Validation ChunkingUtils ContentExtractor
       ChunkingService.

Lemma int_of_digits_nonneg (d : string) (n : Z) :
  int_of_digits d = Some n -> (0 <= n)%Z.
Proof.
  unfold int_of_digits. destruct (NilZero.uint_of_string d); [|discriminate].
  intros [= <-]. unfold Z.of_uint. apply N2Z.is_nonneg.
Qed.

(** The numbers parsed from a passage id are natural numbers, and the id
    rendered from them parses to the same numbers. *)
Theorem parsed_components_are_natural (passage_id : string) (c s p : Z) :
  extract_passage_id_components passage_id = Some (c, s, p) ->
  (0 <= c)%Z /\ (0 <= s)%Z /\ (0 <= p)%Z
  /\ extract_passage_id_components (generate_passage_id c s p)
     = Some (c, s, p).
Proof.
  unfold extract_passage_id_components.
  destruct (drop_prefix "ch" passage_id) as [r1|]; [|discriminate].
  destruct (span_digits r1) as [d1 r2].
  destruct (drop_prefix "-sec" r2) as [r3|]; [|discriminate].
  destruct (span_digits r3) as [d2 r4].
  destruct (drop_prefix "-p" r4) as [r5|]; [|discriminate].
  destruct (span_digits r5) as [d3 r6].
  destruct (_ || _); [|discriminate].
  destruct (int_of_digits d1) as [n1|] eqn:E1; [|discriminate].
  destruct (int_of_digits d2) as [n2|] eqn:E2; [|discriminate].
  destruct (int_of_digits d3) as [n3|] eqn:E3; [|discriminate].
  intros [= <- <- <-].
  apply int_of_digits_nonneg in E1, E2, E3.
  repeat split; auto. now apply extract_generate_nonneg.
Qed.

Lemma parsed_components_are_natural_witness :
  (0 <= 7)%Z /\ (0 <= 2)%Z /\ (0 <= 45)%Z
  /\ extract_passage_id_components (generate_passage_id 7 2 45)
     = Some (7, 2, 45)%Z.
Proof.
  apply (parsed_components_are_natural ("ch007-sec2-p45" ++ nl)).
  vm_compute; reflexivity.
Defined.

(** Ids rendered from natural numbers are equal only for equal numbers. *)
Lemma generate_passage_id_inj (c s p c' s' p' : Z) :
  (0 <= c)%Z -> (0 <= s)%Z -> (0 <= p)%Z ->
  (0 <= c')%Z -> (0 <= s')%Z -> (0 <= p')%Z ->
  generate_passage_id c s p = generate_passage_id c' s' p' ->
  c = c' /\ s = s' /\ p = p'.
Proof.
  intros Hc Hs Hp Hc' Hs' Hp' E.
  apply (f_equal extract_passage_id_components) in E.
  rewrite !extract_generate_nonneg in E by assumption.
  injection E as -> -> ->. auto.
Qed.

(** An id rendered from natural numbers has the form that the Chunk model
    asks for. *)
Lemma generated_id_pattern (c s p : Z) :
  (0 <= c)%Z -> (0 <= s)%Z -> (0 <= p)%Z ->
  Indexing.passage_id_pattern (generate_passage_id c s p) = true.
Proof.
  intros Hc Hs Hp.
  destruct (str_of_int_digits c Hc) as [Dc Tc].
  destruct (str_of_int_digits s Hs) as [Ds Ts].
  destruct (str_of_int_digits p Hp) as [Dp Tp].
  unfold Indexing.passage_id_pattern, generate_passage_id.
  rewrite drop_prefix_app.
  rewrite (span_digits_app _ _ Dc) by reflexivity.
  rewrite drop_prefix_app.
  rewrite (span_digits_app _ _ Ds) by reflexivity.
  rewrite drop_prefix_app.
  replace (str_of_int p) with (str_of_int p ++ "") at 1
    by apply append_nil_r.
  rewrite (span_digits_app _ _ Dp) by reflexivity.
  now rewrite Tc, Ts, Tp.
Qed.

Variable split_markdown_text : string -> list string.

Lemma chunk_texts_nth info title n file (idx : nat) (texts : list string)
    (i : nat) :
  nth_error (chunk_texts info title n file (Z.of_nat idx) texts) i
  = option_map (chunk_at info title n file (idx + i)) (nth_error texts i).
Proof.
  revert idx i; induction texts as [|t ts IH]; intros idx i.
  - now destruct i.
  - destruct i as [|i]; cbn [chunk_texts nth_error option_map].
    + unfold chunk_at. now rewrite Nat.add_0_r.
    + replace (Z.of_nat idx + 1)%Z with (Z.of_nat (S idx)) by lia.
      rewrite IH. now replace (S idx + i)%nat with (idx + S i)%nat by lia.
Qed.

(** The piece at index [i] of the splitter becomes the chunk at index [i]:
    its page is [i + 1], its passage id is made of the chapter number, the
    section number and that page, and chapter, section title and source
    file are those of the call. *)
Theorem chunk_section_nth content info title n file (i : nat) :
  nth_error (chunk_section split_markdown_text content info title n file) i
  = option_map (chunk_at info title n file i)
               (nth_error (split_markdown_text content) i).
Proof. apply (chunk_texts_nth info title n file 0). Qed.

End ChunkIds.

Section FileIds.
Import PyStr Vocab Props Validation ChunkingUtils ContentExtractor
       ChunkingService.
Variable split_markdown_text : string -> list string.

Lemma chunk_texts_ids info title n file (idx : Z) (texts : list string)
    (c : ChunkDict) :
  In c (chunk_texts info title n file idx texts) ->
  exists p, (idx < p)%Z /\ page c = p
            /\ passage_id c
               = generate_passage_id (get_or 0%Z (chapter_num info)) n p.
Proof.
  revert idx; induction texts as [|t ts IH]; intros idx; [intros []|].
  intros [<-|I].
  - exists (idx + 1)%Z. simpl. repeat split. lia.
  - destruct (IH _ I) as (p & L & E). exists p. split; [lia|exact E].
Qed.

Lemma chunk_texts_nodup info title n file (idx : Z) (texts : list string) :
  (0 <= get_or 0 (chapter_num info))%Z -> (0 <= n)%Z -> (0 <= idx)%Z ->
  NoDup (map passage_id (chunk_texts info title n file idx texts)).
Proof.
  intros Hc Hn. revert idx; induction texts as [|t ts IH]; intros idx Hi;
    cbn [chunk_texts map]; constructor.
  - cbn [passage_id]. intros I.
    apply in_map_iff in I as (c & E & I).
    apply chunk_texts_ids in I as (p & L & _ & Ep). rewrite Ep in E.
    apply generate_passage_id_inj in E; lia.
  - apply IH. lia.
Qed.

Lemma chunk_sections_ids info file (n : Z) (sections : list Section_)
    (c : ChunkDict) :
  In c (chunk_sections split_markdown_text info file n sections) ->
  exists n' p, (n <= n')%Z /\ (1 <= p)%Z /\ page c = p
               /\ passage_id c
                  = generate_passage_id (get_or 0%Z (chapter_num info)) n' p.
Proof.
  revert n; induction sections as [|s ss IH]; intros n; [intros []|].
  cbn [chunk_sections]. intros I. apply in_app_or in I as [I|I].
  - apply chunk_texts_ids in I as (p & L & E). exists n, p.
    split; [lia|]. split; [lia|exact E].
  - destruct (IH _ I) as (n' & p & L & E). exists n', p. split; [lia|exact E].
Qed.

Lemma chunk_sections_nodup info file (n : Z) (sections : list Section_) :
  (0 <= get_or 0 (chapter_num info))%Z -> (0 <= n)%Z ->
  NoDup (map passage_id
           (chunk_sections split_markdown_text info file n sections)).
Proof.
  intros Hc. revert n; induction sections as [|s ss IH]; intros n Hn;
    cbn [chunk_sections]; [constructor|].
  rewrite map_app. apply NoDup_app.
  - apply chunk_texts_nodup; lia.
  - apply IH. lia.
  - intros a I J.
    apply in_map_iff in I as (c & <- & I).
    apply in_map_iff in J as (c' & E & J).
    apply chunk_texts_ids in I as (p & L & _ & Ep).
    apply chunk_sections_ids in J as (n' & p' & Ln & Lp & _ & Ep').
    rewrite Ep, Ep' in E.
    apply generate_passage_id_inj in E; lia.
Qed.

(** Within one file whose chapter number is not negative, no two chunks of
    [chunk_file] have the same passage id; each id is made of the chapter
    number, a section number from 1 and the page of the chunk, from 1; it
    parses back to these numbers and has the form that the Chunk model asks
    for. *)
Theorem chunk_file_passage_ids (processed_file : ProcessedFile) :
  (0 <= file_chapter_num processed_file)%Z ->
  NoDup (map passage_id (chunk_file split_markdown_text processed_file))
  /\ forall c, In c (chunk_file split_markdown_text processed_file) ->
       exists n p,
         (1 <= n)%Z /\ (1 <= p)%Z /\ page c = p
         /\ passage_id c
            = generate_passage_id (file_chapter_num processed_file) n p
         /\ extract_passage_id_components (passage_id c)
            = Some (file_chapter_num processed_file, n, p)
         /\ Indexing.passage_id_pattern (passage_id c) = true.
Proof.
  unfold file_chapter_num, chunk_file. intros H. split.
  - apply chunk_sections_nodup; [exact H|lia].
  - intros c I.
    apply chunk_sections_ids in I as (n & p & Ln & Lp & Ep & Ei).
    exists n, p. rewrite Ei.
    repeat split; auto.
    + apply extract_generate_nonneg; lia.
    + apply generated_id_pattern; lia.
Qed.

End FileIds.

Section FileIdsExample.
Import PyStr Vocab Props Validation ChunkingUtils ContentExtractor
       ChunkingService.

Lemma chunk_file_passage_ids_witness :
  let body := "## One" ++ nl ++ "first" ++ nl ++ "## Two" ++ nl ++ "second" in
  let file :=
    process_body "book/ch1.md"
      (Some (mkChapterInfo (Some 1%Z) (Some "Intro")
                           (Some "Chapter 1: Intro"))) body in
  map passage_id (chunk_file (fun s => [s; s]) file)
  = ["ch1-sec1-p1"; "ch1-sec1-p2"; "ch1-sec2-p1"; "ch1-sec2-p2"]%list
  /\ NoDup (map passage_id (chunk_file (fun s => [s; s]) file))
  /\ forall c, In c (chunk_file (fun s => [s; s]) file) ->
       exists n p,
         (1 <= n)%Z /\ (1 <= p)%Z /\ page c = p
         /\ passage_id c = generate_passage_id 1 n p
         /\ extract_passage_id_components (passage_id c) = Some (1%Z, n, p)
         /\ Indexing.passage_id_pattern (passage_id c) = true.
Proof.
  split; [vm_compute; reflexivity|].
  apply (chunk_file_passage_ids (fun s => [s; s])
           (process_body "book/ch1.md"
              (Some (mkChapterInfo (Some 1%Z) (Some "Intro")
                                   (Some "Chapter 1: Intro")))
              ("## One" ++ nl ++ "first" ++ nl ++ "## Two" ++ nl
               ++ "second"))).
  vm_compute; discriminate.
Defined.

End FileIdsExample.

(** ** Sections of a body *)

Section Sections.
Import PyStr Vocab Props ContentExtractor.

(** The title that the loop holds, with none read as the empty title. *)
Lemma save_section_titles (st : Scan) :
  map section_title (save_section st)
  = (map section_title (sections st)
     ++ filter truthy [get_or "" (current_section st)])%list.
Proof.
  unfold save_section. destruct (current_section st) as [t|]; simpl.
  - destruct (truthy t); [now rewrite map_app|now rewrite app_nil_r].
  - now rewrite app_nil_r.
Qed.

Lemma scan_titles (lines : list string) (st : Scan) :
  map section_title (save_section (fold_left scan_line lines st))
  = (map section_title (save_section st)
     ++ filter truthy (heading_titles lines))%list.
Proof.
  revert st; induction lines as [|l ls IH]; intros st;
    cbn [fold_left heading_titles];
    [now rewrite app_nil_r|].
  rewrite IH. unfold scan_line.
  destruct (section_heading l) as [g|].
  - rewrite (save_section_titles (mkScan _ _ _)).
    cbn [sections current_section get_or filter].
    rewrite <- app_assoc. now destruct (truthy (strip g)).
  - rewrite !save_section_titles. reflexivity.
Qed.

Lemma save_section_trimmed (st : Scan) :
  Forall trimmed_section (sections st) ->
  (forall t, current_section st = Some t -> strip t = t) ->
  Forall trimmed_section (save_section st).
Proof.
  intros F C. unfold save_section.
  destruct (current_section st) as [t|]; [|exact F].
  destruct (truthy t) eqn:T; [|exact F].
  apply Forall_app. split; [exact F|]. constructor; [|constructor].
  repeat split; simpl; auto. apply strip_idem.
Qed.

Lemma scan_trimmed (lines : list string) (st : Scan) :
  Forall trimmed_section (sections st) ->
  (forall t, current_section st = Some t -> strip t = t) ->
  let final := fold_left scan_line lines st in
  Forall trimmed_section (sections final)
  /\ (forall t, current_section final = Some t -> strip t = t).
Proof.
  revert st; induction lines as [|l ls IH]; intros st F C; [now split|].
  cbn [fold_left]. apply IH; unfold scan_line;
    destruct (section_heading l) as [g|]; simpl; auto.
  - now apply save_section_trimmed.
  - intros t [= <-]. apply strip_idem.
Qed.

(** The sections of a body are its headings with a title: their titles are
    the stripped, non-empty titles of the heading lines, in order; titles
    and contents have no white space at either end. *)
Theorem extract_sections_titles (body : string) :
  map section_title (extract_sections body)
  = filter truthy (heading_titles (split_lines body))
  /\ Forall trimmed_section (extract_sections body).
Proof.
  unfold extract_sections. split.
  - now rewrite scan_titles.
  - destruct (scan_trimmed (split_lines body) (mkScan [] None []))
      as [F C]; simpl; auto; [discriminate|].
    now apply save_section_trimmed.
Qed.

Lemma split_lines_nonempty (s : string) : split_lines s <> [].
Proof.
  destruct s as [|c s]; simpl; [discriminate|].
  destruct (Ascii.eqb c newline); [discriminate|].
  now destruct (split_lines s).
Qed.

Lemma split_lines_app (a b : string) :
  split_lines (a ++ nl ++ b) = (split_lines a ++ split_lines b)%list.
Proof.
  induction a as [|c a IH].
  - reflexivity.
  - cbn [append split_lines]. rewrite IH.
    destruct (Ascii.eqb c newline); [reflexivity|].
    pose proof (split_lines_nonempty a) as N.
    now destruct (split_lines a).
Qed.

(** What stands before the first heading is left out: a body that starts
    with a heading gives the same sections when lines without a heading
    are put in front of it. *)
Theorem preamble_is_discarded (preamble body : string) :
  no_section_heading preamble = true -> starts_with_heading body = true ->
  extract_sections (preamble ++ nl ++ body) = extract_sections body.
Proof.
  unfold no_section_heading, starts_with_heading, extract_sections.
  intros P B. rewrite split_lines_app, fold_left_app.
  rewrite (scan_without_heading _ _ P).
  destruct (split_lines body) as [|l ls]; [discriminate|].
  cbn [fold_left]. unfold scan_line at 2 4.
  destruct (section_heading l); [reflexivity|discriminate].
Qed.

Lemma preamble_is_discarded_witness :
  extract_sections
    (("# Chapter 1: Intro" ++ nl ++ "Welcome.") ++ nl
     ++ "## One" ++ nl ++ "first")
  = extract_sections ("## One" ++ nl ++ "first").
Proof.
  apply (preamble_is_discarded ("# Chapter 1: Intro" ++ nl ++ "Welcome.")
           ("## One" ++ nl ++ "first")); reflexivity.
Defined.

Lemma sections_need_a_heading_witness :
  exists line,
    In line (split_lines ("intro" ++ nl ++ "## One" ++ nl ++ "first"))
    /\ section_heading line <> None.
Proof.
  apply (sections_need_a_heading
           ("intro" ++ nl ++ "## One" ++ nl ++ "first")).
  vm_compute; discriminate.
Defined.

End Sections.

(** ** Indexing *)

Section ChunkModel.
Import PyStr Vocab Props ChunkingService.

Lemma pattern_truthy (s : string) :
  Indexing.passage_id_pattern s = true -> truthy s = true.
Proof. now destruct s. Qed.

Lemma model_chunk_spec (d : ChunkDict) (e : list float) :
  model_chunk d e = if storable d e then Some (chunk_of d e) else None.
Proof.
  unfold model_chunk, Indexing.new_Chunk, storable, validate_chunk, chunk_of.
  rewrite !length_truthy.
  destruct (Indexing.passage_id_pattern (passage_id d)) eqn:Pat.
  - rewrite (pattern_truthy _ Pat).
    destruct (truthy (chapter d)), (truthy (section d)),
      (truthy (source_file d)), (List.length e =? 1536)%nat,
      (1 <=? page d)%Z;
    destruct (text d) as [|a t]; cbn [truthy andb negb];
    try reflexivity;
    destruct (Nat.leb_spec 100 (length (String a t)));
    destruct (Nat.leb_spec (length (String a t)) 2000);
    destruct (Nat.ltb_spec (length (String a t)) 100);
    destruct (Nat.ltb_spec 2000 (length (String a t)));
    try reflexivity; lia.
  - now rewrite !andb_false_r.
Qed.

(** The Chunk model accepts a chunk dict exactly when [validate_chunk]
    does, the embedding has 1536 numbers, the page is 1 or more and the
    passage id has the form chN-secM-pP; the chunk then has the fields of
    the dict. *)
Theorem model_accepts_the_storable (d : ChunkDict) (e : list float) :
  (storable d e = true -> model_chunk d e = Some (chunk_of d e))
  /\ (storable d e = false -> model_chunk d e = None).
Proof. rewrite model_chunk_spec. split; now intros ->. Qed.

End ChunkModel.

Section Batches.
Import PyStr Vocab Props Env Indexing.
Context {A : Type}.

Lemma batches_from_concat (fuel n : nat) (l : list A) :
  1 <= n -> List.length l <= fuel ->
  List.concat (batches_from fuel n l) = l.
Proof.
  intros N. revert l; induction fuel as [|fuel IH]; intros l L.
  - destruct l; [reflexivity|simpl in L; lia].
  - destruct l as [|x l]; [reflexivity|].
    cbn [batches_from List.concat]. rewrite IH; [apply firstn_skipn|].
    rewrite length_skipn.
    change (List.length (x :: l)) with (S (List.length l)) in *. lia.
Qed.

(** The batches are the list, cut into pieces. *)
Lemma batches_concat (n : nat) (l : list A) :
  1 <= n -> List.concat (batches n l) = l.
Proof. intros N. now apply batches_from_concat. Qed.

Lemma batches_from_width (fuel n : nat) (l : list A) :
  Forall (fun b => List.length b <= n) (batches_from fuel n l).
Proof.
  revert l; induction fuel as [|fuel IH]; intros l; [constructor|].
  destruct l as [|x l]; [constructor|].
  cbn [batches_from]. constructor; [apply firstn_le_length|apply IH].
Qed.

(** A list that fits in one batch is one batch. *)
Lemma batches_single (n : nat) (l : list A) :
  l <> [] -> List.length l <= n -> batches n l = [l].
Proof.
  intros N L. unfold batches. destruct l as [|x l]; [congruence|].
  cbn [List.length batches_from].
  rewrite firstn_all2 by exact L. rewrite skipn_all2 by exact L.
  now destruct (List.length l).
Qed.

End Batches.

Section Embedding.
Import PyStr Vocab Props Env Indexing.

Lemma chunks_of_pairs_sound
    (pairs : list (ChunkingService.ChunkDict * list float)) (c : Chunk) :
  In c (chunks_of_pairs pairs) ->
  exists d e, In (d, e) pairs /\ model_chunk d e = Some c.
Proof.
  induction pairs as [|[d e] rest IH]; [intros []|].
  cbn [chunks_of_pairs]. fold (model_chunk d e).
  destruct (model_chunk d e) as [c0|] eqn:M; [|intros []].
  intros [<-|I].
  - exists d, e. split; [now left|exact M].
  - destruct (IH I) as (d' & e' & I' & M'). exists d', e'.
    split; [now right|exact M'].
Qed.

Lemma chunks_of_pairs_length
    (pairs : list (ChunkingService.ChunkDict * list float)) :
  List.length (chunks_of_pairs pairs) <= List.length pairs.
Proof.
  induction pairs as [|[d e] rest IH]; [simpl; lia|].
  cbn [chunks_of_pairs]. destruct (new_Chunk _ _ _ _ _ _ _); simpl; lia.
Qed.

Lemma embed_batch_length (P : Providers)
    (batch : list ChunkingService.ChunkDict) :
  List.length (embed_batch P batch) <= List.length batch.
Proof.
  unfold embed_batch.
  destruct (generate_embeddings_batch P _) as [embeddings|msg];
    [|simpl; lia].
  pose proof (chunks_of_pairs_length (combine batch embeddings)) as L.
  rewrite length_combine in L. lia.
Qed.

Lemma flat_map_embed_length (P : Providers)
    (bs : list (list ChunkingService.ChunkDict)) :
  List.length (flat_map (embed_batch P) bs) <= List.length (List.concat bs).
Proof.
  induction bs as [|b bs IH]; simpl; [lia|].
  rewrite !List.length_app. pose proof (embed_batch_length P b). lia.
Qed.

(** Every chunk that [generate_embeddings_for_chunks] returns is made of
    one of the chunk dicts, which the Chunk model accepts with its
    embedding, so its text has 100 to 2000 characters; and there are no
    more chunks than chunk dicts. *)
Theorem embedded_chunks_are_storable (P : Providers)
    (chunk_dicts : list ChunkingService.ChunkDict) (batch_size : nat)
    (chunks : list Chunk) :
  generate_embeddings_for_chunks P chunk_dicts batch_size = Returns chunks ->
  List.length chunks <= List.length chunk_dicts
  /\ forall c, In c chunks ->
       exists d, In d chunk_dicts
                 /\ c = chunk_of d (embedding c)
                 /\ storable d (embedding c) = true
                 /\ 100 <= length (text c) <= 2000.
Proof.
  unfold generate_embeddings_for_chunks.
  destruct batch_size as [|n]; [discriminate|]. intros [= <-].
  assert (N : 1 <= S n) by lia.
  pose proof (batches_concat (S n) chunk_dicts N) as C. split.
  - rewrite <- C at 2. apply flat_map_embed_length.
  - intros c I. apply in_flat_map in I as (b & Ib & I).
    unfold embed_batch in I.
    destruct (generate_embeddings_batch P _) as [embeddings|msg];
      [|destruct I].
    apply chunks_of_pairs_sound in I as (d & e & Ip & M).
    apply in_combine_l in Ip.
    assert (Id : In d chunk_dicts)
      by (rewrite <- C; apply in_concat; now exists b).
    unfold model_chunk, new_Chunk in M.
    destruct (_ && _) eqn:V; [|discriminate]. injection M as <-.
    exists d. cbn [embedding text]. split; [exact Id|].
    split; [reflexivity|].
    repeat (apply andb_true_iff in V as [V ?]).
    repeat match goal with
           | H : (_ <=? _)%nat = true |- _ => apply Nat.leb_le in H
           end.
    split; [|lia].
    destruct (storable d e) eqn:S; [reflexivity|].
    pose proof (model_chunk_spec d e) as M. rewrite S in M.
    unfold model_chunk, new_Chunk in M. revert M.
    repeat match goal with
           | H : _ <= _ |- _ => apply Nat.leb_le in H; rewrite H; clear H
           | H : _ = true |- _ => rewrite H; clear H
           end.
    discriminate.
Qed.

End Embedding.

Section EmbeddingRuns.
Import PyStr Vocab Props Env Indexing.

Lemma chunks_of_pairs_all (embed : string -> list float)
    (b : list ChunkingService.ChunkDict) :
  (forall d, In d b -> storable d (embed (ChunkingService.text d)) = true) ->
  chunks_of_pairs (combine b (map embed (map ChunkingService.text b)))
  = map (fun d => chunk_of d (embed (ChunkingService.text d))) b.
Proof.
  induction b as [|d b IH]; intros S; [reflexivity|].
  cbn [map combine chunks_of_pairs].
  fold (model_chunk d (embed (ChunkingService.text d))).
  rewrite model_chunk_spec, S by now left.
  f_equal. apply IH. intros d' I. apply S. now right.
Qed.

Lemma chunks_of_pairs_cut (embed : string -> list float)
    (good : list ChunkingService.ChunkDict) (bad : ChunkingService.ChunkDict)
    (rest : list ChunkingService.ChunkDict) :
  (forall d, In d good ->
             storable d (embed (ChunkingService.text d)) = true) ->
  storable bad (embed (ChunkingService.text bad)) = false ->
  chunks_of_pairs
    (combine (good ++ bad :: rest)
       (map embed (map ChunkingService.text (good ++ bad :: rest))))
  = map (fun d => chunk_of d (embed (ChunkingService.text d))) good.
Proof.
  intros G B. induction good as [|d good IH].
  - cbn [app map combine chunks_of_pairs].
    fold (model_chunk bad (embed (ChunkingService.text bad))).
    now rewrite model_chunk_spec, B.
  - cbn [app map combine chunks_of_pairs].
    fold (model_chunk d (embed (ChunkingService.text d))).
    rewrite model_chunk_spec, G by now left.
    f_equal. apply IH. intros d' I. apply G. now right.
Qed.

(** When the embedding provider answers every batch with one vector per
    text and the Chunk model accepts every chunk dict with its vector, every
    chunk dict is embedded, in order, whatever the batch size. *)
Theorem all_storable_are_embedded (P : Providers)
    (embed : string -> list float)
    (chunk_dicts : list ChunkingService.ChunkDict) (batch_size : nat) :
  1 <= batch_size ->
  (forall texts, generate_embeddings_batch P texts
                 = Returns (map embed texts)) ->
  (forall d, In d chunk_dicts ->
             storable d (embed (ChunkingService.text d)) = true) ->
  generate_embeddings_for_chunks P chunk_dicts batch_size
  = Returns (map (fun d => chunk_of d (embed (ChunkingService.text d)))
                 chunk_dicts).
Proof.
  intros N E St. unfold generate_embeddings_for_chunks.
  destruct batch_size as [|n]; [lia|]. f_equal.
  pose proof (batches_concat (S n) chunk_dicts N) as C.
  rewrite <- C in St. rewrite <- C at 2. clear C.
  induction (batches (S n) chunk_dicts) as [|b bs IH]; [reflexivity|].
  cbn [flat_map List.concat]. rewrite map_app. f_equal.
  - unfold embed_batch. rewrite E. apply chunks_of_pairs_all.
    intros d I. apply St. cbn [List.concat]. apply in_or_app. now left.
  - apply IH. intros d I. apply St. cbn [List.concat].
    apply in_or_app. now right.
Qed.

(** A chunk dict that the Chunk model rejects ends its batch: the chunk
    dicts before it in the batch are embedded, and those after it are
    dropped with it, whether or not the model would accept them. *)
Theorem rejected_chunk_cuts_its_batch (P : Providers)
    (embed : string -> list float)
    (good : list ChunkingService.ChunkDict) (bad : ChunkingService.ChunkDict)
    (rest : list ChunkingService.ChunkDict) (batch_size : nat) :
  List.length (good ++ bad :: rest) <= batch_size ->
  generate_embeddings_batch P
    (map ChunkingService.text (good ++ bad :: rest))
  = Returns (map embed (map ChunkingService.text (good ++ bad :: rest))) ->
  (forall d, In d good ->
             storable d (embed (ChunkingService.text d)) = true) ->
  storable bad (embed (ChunkingService.text bad)) = false ->
  generate_embeddings_for_chunks P (good ++ bad :: rest) batch_size
  = Returns (map (fun d => chunk_of d (embed (ChunkingService.text d)))
                 good).
Proof.
  intros L E G B. unfold generate_embeddings_for_chunks.
  destruct batch_size as [|n];
    [rewrite List.length_app in L; simpl in L; lia|].
  rewrite batches_single by (auto; now destruct good).
  cbn [flat_map]. rewrite app_nil_r. unfold embed_batch. rewrite E.
  f_equal. now apply chunks_of_pairs_cut.
Qed.

End EmbeddingRuns.

Section IndexingRuns.
Import PyStr Vocab Props Samples Env Indexing.

Lemma embedded_chunks_are_storable_witness :
  let chunks := [chunk_of (dict long_text 1) (zero_vector long_text)] in
  List.length chunks <= 1
  /\ forall c, In c chunks ->
       exists d, In d [dict long_text 1]
                 /\ c = chunk_of d (embedding c)
                 /\ storable d (embedding c) = true
                 /\ 100 <= length (text c) <= 2000.
Proof.
  apply (embedded_chunks_are_storable (indexer true) [dict long_text 1] 100).
  vm_compute; reflexivity.
Defined.

Lemma all_storable_are_embedded_witness :
  generate_embeddings_for_chunks (indexer true)
    [dict long_text 1; dict long_text 2] 1
  = Returns [chunk_of (dict long_text 1) (zero_vector long_text);
             chunk_of (dict long_text 2) (zero_vector long_text)].
Proof.
  apply (all_storable_are_embedded (indexer true) zero_vector
           [dict long_text 1; dict long_text 2] 1).
  - lia.
  - reflexivity.
  - intros d [<-|[<-|[]]]; vm_compute; reflexivity.
Defined.

Lemma rejected_chunk_cuts_its_batch_witness :
  generate_embeddings_for_chunks (indexer true)
    [dict long_text 1; dict short_text 2; dict long_text 3] 100
  = Returns [chunk_of (dict long_text 1) (zero_vector long_text)].
Proof.
  apply (rejected_chunk_cuts_its_batch (indexer true) zero_vector
           [dict long_text 1] (dict short_text 2) [dict long_text 3] 100).
  - vm_compute; lia.
  - reflexivity.
  - intros d [<-|[]]; vm_compute; reflexivity.
  - vm_compute; reflexivity.
Defined.

Lemma embedded_length (P : Providers)
    (chunk_dicts : list ChunkingService.ChunkDict) (batch_size : nat)
    (chunks : list Chunk) :
  generate_embeddings_for_chunks P chunk_dicts batch_size = Returns chunks ->
  List.length chunks <= List.length chunk_dicts.
Proof.
  unfold generate_embeddings_for_chunks.
  destruct batch_size as [|n]; [discriminate|]. intros [= <-].
  rewrite <- (batches_concat (S n) chunk_dicts) at 2 by lia.
  apply flat_map_embed_length.
Qed.

Lemma index_batches_le (P : Providers) (k : nat) (bs : list (list Chunk)) :
  index_batches P k bs <= List.length (List.concat bs).
Proof.
  revert k; induction bs as [|b bs IH]; intros k; simpl; [lia|].
  rewrite List.length_app. specialize (IH (S k)).
  destruct (upsert_points P k b); lia.
Qed.

Lemma index_batches_uniform (P : Providers) (ok : bool) (k : nat)
    (bs : list (list Chunk)) :
  (forall i b, upsert_points P i b = ok) ->
  index_batches P k bs = if ok then List.length (List.concat bs) else 0.
Proof.
  intros U. revert k; induction bs as [|b bs IH]; intros k; simpl;
    [now destruct ok|].
  rewrite U, IH, List.length_app. now destruct ok.
Qed.

(** [index_chunks] never counts more chunks than it was given; it counts
    all of them when every upsert succeeds and none when every upsert
    fails. *)
Theorem index_chunks_count (P : Providers) (chunks : list Chunk)
    (batch_size count : nat) :
  index_chunks P chunks batch_size = Returns count ->
  count <= List.length chunks
  /\ ((forall i b, upsert_points P i b = true) ->
      count = List.length chunks)
  /\ ((forall i b, upsert_points P i b = false) -> count = 0).
Proof.
  unfold index_chunks. destruct batch_size as [|n]; [discriminate|].
  intros [= <-].
  pose proof (batches_concat (S n) chunks) as C.
  split; [|split].
  - rewrite <- C at 2 by lia. apply index_batches_le.
  - intros U. rewrite (index_batches_uniform P true) by exact U.
    rewrite C by lia. reflexivity.
  - intros U. now rewrite (index_batches_uniform P false) by exact U.
Qed.

Lemma index_chunks_count_witness :
  2 <= List.length [chunk_of (dict long_text 1) (zero_vector long_text);
                    chunk_of (dict long_text 2) (zero_vector long_text)]
  /\ ((forall i b, upsert_points (indexer true) i b = true) ->
      2 = List.length
            [chunk_of (dict long_text 1) (zero_vector long_text);
             chunk_of (dict long_text 2) (zero_vector long_text)])
  /\ ((forall i b, upsert_points (indexer true) i b = false) -> 2 = 0).
Proof.
  apply (index_chunks_count (indexer true)
           [chunk_of (dict long_text 1) (zero_vector long_text);
            chunk_of (dict long_text 2) (zero_vector long_text)] 1 2).
  reflexivity.
Defined.

(** The statistics of [index_all_content]: the files are all counted, the
    chunks created are those of [chunk_all_files], no more chunks are
    embedded than created nor indexed than embedded, and with a batch size of
    1 or more no error is recorded, whatever the providers do. *)
Theorem index_all_content_stats (P : Providers)
    (processed_files : list ContentExtractor.ProcessedFile)
    (batch_size : nat) :
  let stats := index_all_content P processed_files batch_size in
  files_processed stats = List.length processed_files
  /\ chunks_created stats
     = List.length (chunk_all_files (split_markdown_text P) processed_files)
  /\ consistent stats
  /\ (1 <= batch_size -> errors stats = []).
Proof.
  unfold index_all_content, consistent.
  destruct processed_files as [|f fs]; [simpl; repeat split; lia|].
  destruct (chunk_all_files _ (f :: fs)) as [|d ds] eqn:CD;
    [simpl; repeat split; lia|].
  destruct (generate_embeddings_for_chunks P (d :: ds) batch_size)
    as [chunks|msg] eqn:G.
  - apply embedded_length in G as L.
    destruct chunks as [|c cs]; [simpl in *; repeat split; lia|].
    destruct (index_chunks P (c :: cs) batch_size) as [count|msg] eqn:I.
    + unfold index_chunks in I. destruct batch_size as [|n]; [discriminate|].
      injection I as <-.
      pose proof (index_batches_le P 0 (batches (S n) (c :: cs))) as B.
      rewrite batches_concat in B by lia.
      cbn [files_processed chunks_created chunks_embedded chunks_indexed
           errors]. repeat split; auto; lia.
    + unfold index_chunks in I. destruct batch_size; [|discriminate].
      discriminate G.
  - unfold generate_embeddings_for_chunks in G.
    destruct batch_size; [|discriminate].
    simpl. repeat split; lia.
Qed.

End IndexingRuns.
